(** * ChatLuna room middlewares: a shallow embedding

    The development covers three chain middlewares of the core package:

    - [read_chat_message]  (middlewares/read_chat_message.ts)
    - [check_room]         (middlewares/check_room.ts)
    - [resolve_room]       (middlewares/resolve_room.ts)

    Each handler is an [async (session, context) => ...] closure over the
    plugin configuration.  It is embedded as a function in a small
    state-and-exit monad: the state carries the mutable chain context and
    the chronological trace of calls made to the collaborators (room
    repository, cache, logger, reply capability); an exit is either an early
    [return] of a run status or a JavaScript [TypeError].  The answers of the
    collaborators that only read (queries, [uuidv4], [Math.random]) are
    taken from an explicit record, so that every handler is a total,
    executable function. *)

From Stdlib Require Import Ascii String QArith Qround Qpower Lqa SpecFloat.
From stdpp Require Import base option list strings gmap.

Local Open Scope Z_scope.

(** ** JavaScript helpers *)

(** [a ?? b] *)
Definition nullish {A : Type} (a : option A) (b : A) : A :=
  match a with
  | Some x => x
  | None => b
  end.

(** [a ?? b] where [b] may itself be [undefined] *)
Definition nullish_or {A : Type} (a b : option A) : option A :=
  match a with
  | Some x => Some x
  | None => b
  end.

(** [a != null] *)
Definition not_null {A : Type} (a : option A) : bool :=
  match a with
  | Some _ => true
  | None => false
  end.

(** [arr[i]] for a numeric index: [undefined] outside the array. *)
Definition js_index {A : Type} (arr : list A) (i : Z) : option A :=
  if i <? 0 then None else arr !! Z.to_nat i.

(** *** Numbers

    A JavaScript Number is a binary64 floating-point value.  The ones met
    here are finite and not negative: [mantissa * 2 ^ exponent] with a
    mantissa of at most 53 bits and an exponent between -1074 and 971. *)
Record binary64 : Set := mkBinary64 {
  mantissa : Z;
  exponent : Z;
  binary64_bounded :
    (0 <=? mantissa) && (mantissa <? 2 ^ 53)
    && (-1074 <=? exponent) && (exponent <=? 971) = true
}.

(** The rational [m * 2 ^ e]. *)
Definition dyadic (m e : Z) : Q := (inject_Z m * 2 ^ e)%Q.

(** The rational a Number stands for. *)
Definition binary64_value (u : binary64) : Q := dyadic (mantissa u) (exponent u).

Coercion binary64_value : binary64 >-> Q.

(** [m / 2 ^ s] rounded to the nearest integer, a tie going to the even
    one ([0 < s]). *)
Definition round_half_even (m s : Z) : Z :=
  let q := Z.shiftr m s in
  let r := Z.land m (Z.ones s) in
  let half := Z.shiftl 1 (s - 1) in
  if r <? half then q
  else if half <? r then q + 1
  else if Z.even q then q else q + 1.

(** [u * n] for a Number [u] and an integer [n] that is itself a Number
    (an array length is below [2 ^ 32]): the exact product
    [mantissa u * n * 2 ^ exponent u], rounded to 53 significant bits, and
    to a multiple of [2 ^ -1074] in the subnormal range; the result is kept
    as the rational it stands for.  With [u < 1] the product is below [n],
    so the overflow to [Infinity] does not arise. *)
Definition times (u : binary64) (n : Z) : Q :=
  let p := mantissa u * n in
  if p =? 0 then 0%Q
  else
    let g := Z.max (Z.log2 p + exponent u - 52) (-1074) in
    if g <=? exponent u then dyadic p (exponent u)
    else dyadic (round_half_even p (g - exponent u)) g.

(** The same product through the multiplication [SFmul] of the Standard
    Library's specification of IEEE 754, at precision 53 and maximal
    exponent 1024, for comparison with [times]. *)
Definition SF_of_Z (m e : Z) : spec_float :=
  match m with
  | Zpos p => S754_finite false p e
  | _ => S754_zero false
  end.

Definition SF_value (x : spec_float) : option Q :=
  match x with
  | S754_zero _ => Some 0%Q
  | S754_finite false m e => Some (dyadic (Zpos m) e)
  | _ => None
  end.

Definition SF_times (u : binary64) (n : Z) : option Q :=
  SF_value (SFmul 53 1024 (SF_of_Z (mantissa u) (exponent u)) (SF_of_Z n 0)).

Definition times_agrees (u : binary64) (n : Z) : bool :=
  match SF_times u n with
  | Some q => Qeq_bool q (times u n)
  | None => false
  end.

(** The relative rounding error of one operation, [2 ^ -53]. *)
Definition epsilon : Q := 1 # 9007199254740992.

(** [Math.floor(u * arr.length)] where [u] is the value of [Math.random()]. *)
Definition random_index (u : binary64) (len : nat) : Z :=
  Qfloor (times u (Z.of_nat len)).

(** [s.split(sep)] for a one-character separator: never empty, and the
    empty string splits into one empty field. *)
Fixpoint split (sep : ascii) (s : string) : list string :=
  match s with
  | EmptyString => [EmptyString]
  | String c rest =>
      if Ascii.eqb c sep then EmptyString :: split sep rest
      else match split sep rest with
           | [] => [String c EmptyString]
           | w :: ws => String c w :: ws
           end
  end.

(** [s.startsWith(p)] *)
Definition startsWith (s p : string) : bool := String.prefix p s.

(** [arr.join("")]: [undefined] and [null] entries print as nothing. *)
Definition join_empty (arr : list (option string)) : string :=
  foldr (fun o acc => nullish o EmptyString +:+ acc) EmptyString arr.

(** ** Shared data model *)

(** [ChainMiddlewareRunStatus] of chains/chain. *)
Inductive ChainMiddlewareRunStatus : Set :=
| SKIPPED
| STOP
| CONTINUE.

(** Modelled from the spec: the [ConversationRoom] declaration of [../types]
    is not among the sources; section 3 of the specification lists its
    fields and the three visibilities.  The handlers compare [visibility]
    with the literals ['private'] and ['template_clone'] only. *)
Inductive Visibility : Set :=
| private
| public
| template_clone.

Record ConversationRoom : Set := mkRoom {
  roomId : Z;
  roomName : string;
  conversationId : string;
  roomMasterId : string;
  visibility : Visibility;
  preset : string;
  model : string;
  chatMode : string;
  autoUpdate : bool
}.

Global Instance Visibility_eq_dec : EqDecision Visibility.
Proof. solve_decision. Defined.

Global Instance ConversationRoom_eq_dec : EqDecision ConversationRoom.
Proof. solve_decision. Defined.

Definition visibility_eqb (a b : Visibility) : bool := bool_decide (a = b).

(** The fields of [Config] the three handlers read. *)
Record Config : Set := mkConfig {
  allowChatWithRoomName : bool;
  allowPrivate : bool;
  privateChatWithoutCommand : bool;
  allowAtReply : bool;
  botName : string;
  isNickname : bool;
  autoCreateRoomFromUser : bool;
  defaultPreset : string;
  defaultModel : string;
  defaultChatMode : string
}.

(** A message element [h]: only [type] and [attrs] are read. *)
Record Element : Type := mkElement {
  type : string;
  attrs : gmap string string
}.

(** The fields of a koishi [Session] the handlers read.  [appel] is
    [session.stripped.appel]; [guild_name] and [guild_id] are
    [session.event.guild.name] and [session.event.guild.id], which the
    source dereferences without a guard for every message that is not
    direct.  The record describes the sessions that carry an element list
    and an [event.guild]; a session without them, on which these accesses
    throw, is not described. *)
Record Session : Type := mkSession {
  isDirect : bool;
  userId : string;
  username : option string;
  appel : bool;
  content : string;
  guild_name : option string;
  guild_id : string;
  elements : list Element
}.

(** ** Collaborators *)

(** The second argument of [switchConversationRoom]: [resolve_room] passes
    [room.roomId], [check_room] passes [room.roomName]. *)
Inductive RoomKey : Set :=
| ById (id : Z)
| ByName (name : string).

(** One entry per call that writes to a collaborator, in program order.
    A room argument is recorded with the field values it has at the time of
    the call. *)
Inductive Event : Set :=
| SwitchConversationRoom (user : string) (key : RoomKey)
| CreateConversationRoom (user : string) (room : ConversationRoom)
| ClearCache (room : ConversationRoom)
| Upsert (room : ConversationRoom)
| ClearChatHistory (room : ConversationRoom)
| Send (text : string)
| LogSuccess (text : string)
| LogDebug (text : string).

(** What the reading collaborators answer during one run of a handler. *)
Record Collaborators : Type := mkCollaborators {
  (** [queryJoinedConversationRoom(ctx, session, name)] *)
  queryJoinedConversationRoom : option string -> option ConversationRoom;
  (** [getAllJoinedConversationRoom(ctx, session)] *)
  getAllJoinedConversationRoom : list ConversationRoom;
  (** [queryPublicConversationRoom(ctx, session)] *)
  queryPublicConversationRoom : option ConversationRoom;
  (** [getTemplateConversationRoom(ctx, config)] *)
  getTemplateConversationRoom : option ConversationRoom;
  (** [getConversationRoomCount(ctx)], imported as
      [getMaxConversationRoomId] *)
  getMaxConversationRoomId : Z;
  (** [uuidv4()] *)
  uuidv4 : string;
  (** [Math.random()] *)
  Math_random : binary64;
  (** [ctx.chatluna.messageTransformer.transform(session, [h.text(parts)])] *)
  transform : list string -> string
}.

(** ** The handler monad *)

Inductive JsError : Set :=
| TypeError (what : string).

(** How a piece of a handler body ends: it falls through with a value, it
    executes [return status], or it throws. *)
Inductive Completion (A : Type) : Type :=
| Normal (a : A)
| Return (status : ChainMiddlewareRunStatus)
| Throw (e : JsError).

Arguments Normal {A} a.
Arguments Return {A} status.
Arguments Throw {A} e.

Definition M (S A : Type) : Type := S -> Completion A * S.

Definition ret {S A : Type} (a : A) : M S A := fun s => (Normal a, s).

Definition bind {S A B : Type} (m : M S A) (k : A -> M S B) : M S B :=
  fun s =>
    match m s with
    | (Normal a, s') => k a s'
    | (Return st, s') => (Return st, s')
    | (Throw e, s') => (Throw e, s')
    end.

Definition return_status {S A : Type} (st : ChainMiddlewareRunStatus) : M S A :=
  fun s => (Return st, s).

Definition throw {S A : Type} (e : JsError) : M S A :=
  fun s => (Throw e, s).

Definition get {S : Type} : M S S := fun s => (Normal s, s).

Definition modify {S : Type} (f : S -> S) : M S unit :=
  fun s => (Normal tt, f s).

Declare Scope handler_scope.
Delimit Scope handler_scope with handler.

Notation "'let*' x ':=' c 'in' k" := (bind c (fun x => k))
  (at level 10, x pattern, c at level 100, k at level 200) : handler_scope.

Notation "c ';;' k" := (bind c (fun _ => k))
  (at level 100, k at level 200, right associativity) : handler_scope.

(** What the chain observes of a handler that returns a status. *)
Inductive Outcome : Set :=
| Returned (status : ChainMiddlewareRunStatus)
| Threw (e : JsError).

Definition run_handler {S : Type} (body : M S ChainMiddlewareRunStatus) (s : S)
  : Outcome * S :=
  match body s with
  | (Normal st, s') => (Returned st, s')
  | (Return st, s') => (Returned st, s')
  | (Throw e, s') => (Threw e, s')
  end.

(** The state of one run: the chain context of the handler and the calls
    made so far. *)
Record RunState (C : Type) : Type := mkRunState {
  context : C;
  trace : list Event
}.

Arguments mkRunState {C} context trace.
Arguments context {C} r.
Arguments trace {C} r.

Definition emit {C : Type} (e : Event) : M (RunState C) unit :=
  modify (fun s => mkRunState (context s) (trace s ++ [e])).

Definition update_context {C : Type} (f : C -> C) : M (RunState C) unit :=
  modify (fun s => mkRunState (f (context s)) (trace s)).

Definition get_context {C : Type} : M (RunState C) C :=
  fun s => (Normal (context s), s).

(** ** read_chat_message *)

Module ReadChatMessage.

(** The values [context.message] holds at run time. *)
Inductive MessageValue : Type :=
| Nullish
| Primitive (s : string)
| StringObject (s : string)
| Elements (es : list Element).

Record ChainMiddlewareContext : Type := mkContext {
  message : MessageValue;
  options_message : option string
}.

(** A handler of this chain returns a status or a string. *)
Inductive HandlerResult : Set :=
| Signal (status : ChainMiddlewareRunStatus)
| Text (s : string).

(** What [for (const element of message)] binds [element] to. *)
Inductive Item : Type :=
| ItemElement (e : Element)
| ItemChar (c : ascii).

(** Iterating a string yields its characters one at a time.  (JavaScript
    yields code points, the embedding the bytes of the encoded string; in
    both cases each item is a primitive string.)  Iterating a nullish
    value is a [TypeError]. *)
Definition iterate (m : MessageValue) : option (list Item) :=
  match m with
  | Nullish => None
  | Primitive s | StringObject s => Some (ItemChar <$> list_ascii_of_string s)
  | Elements es => Some (ItemElement <$> es)
  end.

(** [element.type]: [undefined] on a primitive string. *)
Definition item_type (it : Item) : option string :=
  match it with
  | ItemElement e => Some (type e)
  | ItemChar _ => None
  end.

(** [name] is truthy *)
Definition truthy (o : option string) : bool :=
  match o with
  | Some s => negb (String.eqb s EmptyString)
  | None => false
  end.

(** The body of the loop, on the accumulator [result]. *)
Definition visit (result : list (option string)) (it : Item)
  : list (option string) :=
  match it with
  | ItemElement e =>
      if String.eqb (type e) "text" then result ++ [attrs e !! "content"]
      else if String.eqb (type e) "at" then
        let name := attrs e !! "name" in
        if truthy name then result ++ [Some ("@" +:+ nullish name EmptyString)]
        else result
      else result
  | ItemChar _ => result
  end.

Definition read_chat_message (session : Session) (context : ChainMiddlewareContext)
  : Completion HandlerResult :=
  let message :=
    match message context with
    | Nullish => Elements (elements session)
    | m => m
    end in
  let instanceof_String :=
    match message with
    | StringObject _ => true
    | _ => false
    end in
  if not_null (options_message context) || instanceof_String
  then Normal (Signal SKIPPED)
  else
    match iterate message with
    | None => Throw (TypeError "message is not iterable")
    | Some items => Normal (Text (join_empty (foldl visit [] items)))
    end.

(** Modelled from the spec: the executor of the chain (chain.ts) is not
    among the sources.  Section 4.2: a status is passed on as it is, and a
    plain string is sugar for "set context message to this string and emit
    STOP". *)
Definition interpret (result : HandlerResult) (context : ChainMiddlewareContext)
  : ChainMiddlewareRunStatus * ChainMiddlewareContext :=
  match result with
  | Signal status => (status, context)
  | Text s => (STOP, mkContext (Primitive s) (options_message context))
  end.

End ReadChatMessage.

(** ** check_room *)

Module CheckRoom.

Record ChainMiddlewareContext : Type := mkContext {
  message : option string;
  options_room : option ConversationRoom
}.

Definition State : Type := RunState ChainMiddlewareContext.

Definition set_message (text : string) : M State unit :=
  update_context (fun c => mkContext (Some text) (options_room c)).

Definition set_room (room : ConversationRoom) : M State unit :=
  update_context (fun c => mkContext (message c) (Some room)).

(** [searchRoom.roomName === room.roomName || searchRoom.roomId === room.roomId] *)
Definition same_room (room searchRoom : ConversationRoom) : bool :=
  String.eqb (roomName searchRoom) (roomName room)
  || Z.eqb (roomId searchRoom) (roomId room).

Definition switched_notice (room : ConversationRoom) : string :=
  "检测到你没有指定房间，已为你随机切换到房间 " +:+ roomName room.

Definition join_first_notice : string :=
  "你还没有加入任何房间，请先加入房间。".

Definition not_joined_notice (room : ConversationRoom) : string :=
  "你没有加入此房间，请先加入房间 " +:+ roomName room +:+ "。".

(** The three guards of the source are [room == null && rooms.length > 0],
    [room == null && rooms.length === 0] and the [every] test; they are
    written here as a case on [room] so that the branches that read
    [room.roomName] have a room at hand. *)
Definition check_room (config : Config) (env : Collaborators) (session : Session)
  : M State ChainMiddlewareRunStatus :=
  (let* context := get_context in
   let rooms := getAllJoinedConversationRoom env in
   let* room :=
     match options_room context with
     | None =>
         if (0 <? length rooms)%nat then
           match js_index rooms (random_index (Math_random env) (length rooms)) with
           | None =>
               throw (TypeError "Cannot read properties of undefined (reading 'roomName')")
           | Some room =>
               emit (SwitchConversationRoom (userId session) (ByName (roomName room)));;
               emit (Send (switched_notice room));;
               ret room
           end
         else
           set_message join_first_notice;;
           return_status STOP
     | Some room =>
         if negb (forallb (same_room room) rooms) then
           set_message (not_joined_notice room);;
           return_status STOP
         else ret room
     end in
   set_room room;;
   ret CONTINUE)%handler.

End CheckRoom.

(** ** resolve_room *)

Module ResolveRoom.

(** [message] is the string the source splits ([context.message as string],
    line 49); [room_resolve_name] is [context.options?.room_resolve?.name].
    The record describes the runs in which [context.message] holds a
    string; with chat by room name enabled a nullish or an array message
    makes [split] throw at line 49, and such a run is not described. *)
Record ChainMiddlewareContext : Type := mkContext {
  message : string;
  command : option string;
  room_resolve_name : option string;
  options_inputMessage : option string;
  options_room : option ConversationRoom
}.

Definition State : Type := RunState ChainMiddlewareContext.

(** [context.options.inputMessage = text] *)
Definition with_inputMessage (text : string) (c : ChainMiddlewareContext)
  : ChainMiddlewareContext :=
  mkContext (message c) (command c) (room_resolve_name c) (Some text)
            (options_room c).

(** [context.options.room = room] *)
Definition with_room (room : option ConversationRoom)
  (c : ChainMiddlewareContext) : ChainMiddlewareContext :=
  mkContext (message c) (command c) (room_resolve_name c)
            (options_inputMessage c) room.

Definition set_inputMessage (text : string) : M State unit :=
  update_context (with_inputMessage text).

Definition set_room (room : option ConversationRoom) : M State unit :=
  update_context (with_room room).

(** [(context.command?.length ?? 0) < 1] *)
Definition no_command (context : ChainMiddlewareContext) : bool :=
  (nullish (String.length <$> command context) 0 <? 1)%nat.

Definition needContinue (config : Config) (session : Session)
  (context : ChainMiddlewareContext) : bool :=
  if isDirect session && allowPrivate config
     && (not_null (command context) || privateChatWithoutCommand config)
  then true
  else if appel session && allowAtReply config then true
  else if startsWith (content session) (botName config) && isNickname config
  then true
  else not_null (command context).

(** The first-word lookup of lines 49-60: the room matched, and what
    [splitContent] holds after the optional [shift()]. *)
Definition matchedRoom (env : Collaborators) (context : ChainMiddlewareContext)
  : option ConversationRoom * list string :=
  let splitContent := split " " (message context) in
  if (1 <? length splitContent)%nat then
    match splitContent with
    | first :: rest => (queryJoinedConversationRoom env (Some first), rest)
    | [] => (queryJoinedConversationRoom env None, [])
    end
  else (None, splitContent).

(** Lines 31-74. *)
Definition match_room_name (config : Config) (env : Collaborators)
  (session : Session) (joinRoom : option ConversationRoom)
  : M State (option ConversationRoom) :=
  (if allowChatWithRoomName config then
     let* context := get_context in
     let '(matched, splitContent) := matchedRoom env context in
     if negb (not_null matched) && negb (needContinue config session context)
     then return_status STOP
     else
       set_inputMessage (transform env (splitContent ++ [" "]));;
       ret matched
   else ret joinRoom)%handler.

Definition owned_private (session : Session) (room : ConversationRoom) : bool :=
  visibility_eqb (visibility room) private
  && String.eqb (roomMasterId room) (userId session).

Definition owned_template_clone (session : Session) (room : ConversationRoom)
  : bool :=
  visibility_eqb (visibility room) template_clone
  && String.eqb (roomMasterId room) (userId session).

Definition is_template_clone (room : ConversationRoom) : bool :=
  visibility_eqb (visibility room) template_clone.

(** Lines 84-109: the value of [joinRoom] when [switchConversationRoom] is
    reached. *)
Definition pick (config : Config) (env : Collaborators) (session : Session)
  (joinedRooms : list ConversationRoom) : option ConversationRoom :=
  let joinRoom :=
    nullish_or (find (owned_private session) joinedRooms)
               (find (owned_template_clone session) joinedRooms) in
  if negb (autoCreateRoomFromUser config) && negb (not_null joinRoom) then
    nullish_or (find is_template_clone joinedRooms)
               (js_index joinedRooms
                  (random_index (Math_random env) (length joinedRooms)))
  else joinRoom.

Definition switched_log (session : Session) (room : ConversationRoom) : string :=
  "已为用户 " +:+ userId session +:+ " 自动切换到房间 " +:+ roomName room +:+ "。".

(** Lines 76-117. *)
Definition pick_joined_room (config : Config) (env : Collaborators)
  (session : Session) (joinRoom : option ConversationRoom)
  : M State (option ConversationRoom) :=
  (match joinRoom with
   | Some _ => ret joinRoom
   | None =>
       let joinedRooms := getAllJoinedConversationRoom env in
       if (0 <? length joinedRooms)%nat then
         match pick config env session joinedRooms with
         | None =>
             throw (TypeError "Cannot read properties of undefined (reading 'roomId')")
         | Some room =>
             emit (SwitchConversationRoom (userId session) (ById (roomId room)));;
             emit (LogSuccess (switched_log session room));;
             ret (Some room)
         end
       else ret None
   end)%handler.

(** Lines 119-131. *)
Definition adopt_public_room (config : Config) (env : Collaborators)
  (session : Session) (joinRoom : option ConversationRoom)
  : M State (option ConversationRoom) :=
  (let* context := get_context in
   if negb (not_null joinRoom) && negb (autoCreateRoomFromUser config)
      && negb (isDirect session) && no_command context
   then
     match queryPublicConversationRoom env with
     | Some room =>
         emit (LogSuccess ("已为用户 " +:+ userId session +:+ " 自动切换到公共房间 "
                           +:+ roomName room +:+ "。"));;
         ret (Some room)
     | None => ret None
     end
   else ret joinRoom)%handler.

(** The owner name put in front of the suffix of a created room's name. *)
Definition owner_label (session : Session) : string :=
  if isDirect session then nullish (username session) (userId session)
  else nullish (guild_name session)
               (nullish (username session) (guild_id session)).

(** Lines 146-188: the clone of the template after its fields are set. *)
Definition cloneRoom (config : Config) (env : Collaborators) (session : Session)
  (templateRoom : ConversationRoom) : ConversationRoom :=
  {| roomId := getMaxConversationRoomId env + 1;
     roomName :=
       if autoCreateRoomFromUser config
       then owner_label session +:+ " 的房间"
       else owner_label session +:+ " 的模版克隆房间";
     conversationId := uuidv4 env;
     roomMasterId := userId session;
     visibility :=
       if autoCreateRoomFromUser config then private else template_clone;
     preset := preset templateRoom;
     model := model templateRoom;
     chatMode := chatMode templateRoom;
     autoUpdate := autoUpdate templateRoom |}.

Definition created_log (config : Config) (session : Session)
  (room : ConversationRoom) : string :=
  if autoCreateRoomFromUser config
  then "已为用户 " +:+ userId session +:+ " 自动创建房间 " +:+ roomName room +:+ "。"
  else "已为用户 " +:+ userId session +:+ " 自动创建模版克隆房间 "
       +:+ roomName room +:+ "。".

(** Lines 133-193. *)
Definition clone_template_room (config : Config) (env : Collaborators)
  (session : Session) (joinRoom : option ConversationRoom)
  : M State (option ConversationRoom) :=
  (let* context := get_context in
   if negb (not_null joinRoom) && no_command context then
     match getTemplateConversationRoom env with
     | None => return_status SKIPPED
     | Some templateRoom =>
         let room := cloneRoom config env session templateRoom in
         emit (LogSuccess (created_log config session room));;
         emit (CreateConversationRoom (userId session) room);;
         ret (Some room)
     end
   else ret joinRoom)%handler.

(** Lines 212-214: the three fields are overwritten from the configuration. *)
Definition with_defaults (config : Config) (room : ConversationRoom)
  : ConversationRoom :=
  {| roomId := roomId room;
     roomName := roomName room;
     conversationId := conversationId room;
     roomMasterId := roomMasterId room;
     visibility := visibility room;
     preset := defaultPreset config;
     model := defaultModel config;
     chatMode := defaultChatMode config;
     autoUpdate := autoUpdate room |}.

Definition updated_log (room : ConversationRoom) : string :=
  "检测到模版房间 " +:+ roomName room +:+ " 的配置变更，已更新到数据库。".

(** Lines 195-224. *)
Definition sync_template_clone (config : Config)
  (joinRoom : option ConversationRoom) : M State (option ConversationRoom) :=
  (match joinRoom with
   | None => ret None
   | Some room =>
       if is_template_clone room && autoUpdate room then
         let* needUpdate :=
           if negb (String.eqb (preset room) (defaultPreset config))
              || negb (String.eqb (chatMode room) (defaultChatMode config))
           then ret true
           else if negb (String.eqb (model room) (defaultModel config))
           then emit (ClearCache room);; ret false
           else ret false in
         let room' := with_defaults config room in
         (if needUpdate : bool then
            emit (Upsert room');;
            emit (ClearChatHistory room');;
            emit (LogDebug (updated_log room'))
          else ret tt);;
         ret (Some room')
       else ret joinRoom
   end)%handler.

(** Lines 25-193: everything up to the adopted [joinRoom]. *)
Definition select_room (config : Config) (env : Collaborators)
  (session : Session) : M State (option ConversationRoom) :=
  (let* context := get_context in
   let joinRoom := queryJoinedConversationRoom env (room_resolve_name context) in
   let* joinRoom := match_room_name config env session joinRoom in
   let* joinRoom := pick_joined_room config env session joinRoom in
   let* joinRoom := adopt_public_room config env session joinRoom in
   clone_template_room config env session joinRoom)%handler.

Definition resolve_room (config : Config) (env : Collaborators)
  (session : Session) : M State ChainMiddlewareRunStatus :=
  (let* joinRoom := select_room config env session in
   let* joinRoom := sync_template_clone config joinRoom in
   set_room joinRoom;;
   ret CONTINUE)%handler.

(** *** The statements of the specification *)

(** The continuation triggers of step 1, in the words of the
    specification: a direct message with private chat allowed and a command
    or [privateChatWithoutCommand]; a mention of the bot with [allowAtReply];
    a message that starts with the bot's name used as a nickname; a command
    context. *)
Definition continuation_trigger (config : Config) (session : Session)
  (context : ChainMiddlewareContext) : Prop :=
  (isDirect session = true /\ allowPrivate config = true
   /\ (command context <> None \/ privateChatWithoutCommand config = true))
  \/ (appel session = true /\ allowAtReply config = true)
  \/ (startsWith (content session) (botName config) = true
      /\ isNickname config = true)
  \/ command context <> None.



(** [queryJoinedConversationRoom] answers with a room the user has joined. *)
Definition joined_consistent (env : Collaborators) : Prop :=
  forall name room,
    queryJoinedConversationRoom env name = Some room ->
    In room (getAllJoinedConversationRoom env).

(** The events steps 1 to 4 can add to the trace. *)
Definition selection_event (e : Event) : Prop :=
  match e with
  | SwitchConversationRoom _ _ | LogSuccess _ | CreateConversationRoom _ _ => True
  | _ => False
  end.

(** What the auto-create property of the specification promises of the
    state [st'] a run from [st] ends in. *)
Definition holds_created_room (config : Config) (env : Collaborators)
  (session : Session) (templateRoom : ConversationRoom) (st st' : State)
  (room : ConversationRoom) : Prop :=
  options_room (context st') = Some room
  /\ trace st' =
       trace st ++ [LogSuccess (created_log config session room);
                    CreateConversationRoom (userId session) room]
  /\ visibility room = private
  /\ roomMasterId room = userId session
  /\ roomId room = getMaxConversationRoomId env + 1
  /\ conversationId room = uuidv4 env
  /\ conversationId room <> conversationId templateRoom
  /\ roomName room = owner_label session +:+ " 的房间".

End ResolveRoom.

(** ** Counting calls in a trace *)

Definition is_upsert (e : Event) : bool :=
  match e with Upsert _ => true | _ => false end.

Definition is_clear_history (e : Event) : bool :=
  match e with ClearChatHistory _ => true | _ => false end.

Definition is_clear_cache (e : Event) : bool :=
  match e with ClearCache _ => true | _ => false end.

Definition calls (which : Event -> bool) (t : list Event) : nat :=
  length (List.filter which t).

(** Every run of [m] appends to the trace, and only events in [P]. *)
Definition appends {C A : Type} (P : Event -> Prop) (m : M (RunState C) A) : Prop :=
  forall st, exists evs, trace (m st).2 = trace st ++ evs /\ Forall P evs.

(** ** Inputs used to exercise the handlers *)

Module Fixtures.

Definition config : Config :=
  {| allowChatWithRoomName := false;
     allowPrivate := true;
     privateChatWithoutCommand := false;
     allowAtReply := true;
     botName := "luna";
     isNickname := true;
     autoCreateRoomFromUser := false;
     defaultPreset := "chatgpt";
     defaultModel := "openai/gpt-4o";
     defaultChatMode := "chat" |}.

(** The same configuration with [allowChatWithRoomName] switched on. *)
Definition config_room_name : Config :=
  {| allowChatWithRoomName := true;
     allowPrivate := allowPrivate config;
     privateChatWithoutCommand := privateChatWithoutCommand config;
     allowAtReply := allowAtReply config;
     botName := botName config;
     isNickname := isNickname config;
     autoCreateRoomFromUser := autoCreateRoomFromUser config;
     defaultPreset := defaultPreset config;
     defaultModel := defaultModel config;
     defaultChatMode := defaultChatMode config |}.

(** The same configuration with [autoCreateRoomFromUser] switched on. *)
Definition config_auto_create : Config :=
  {| allowChatWithRoomName := allowChatWithRoomName config;
     allowPrivate := allowPrivate config;
     privateChatWithoutCommand := privateChatWithoutCommand config;
     allowAtReply := allowAtReply config;
     botName := botName config;
     isNickname := isNickname config;
     autoCreateRoomFromUser := true;
     defaultPreset := defaultPreset config;
     defaultModel := defaultModel config;
     defaultChatMode := defaultChatMode config |}.

(** Both switched on. *)
Definition config_room_name_auto_create : Config :=
  {| allowChatWithRoomName := true;
     allowPrivate := allowPrivate config;
     privateChatWithoutCommand := privateChatWithoutCommand config;
     allowAtReply := allowAtReply config;
     botName := botName config;
     isNickname := isNickname config;
     autoCreateRoomFromUser := true;
     defaultPreset := defaultPreset config;
     defaultModel := defaultModel config;
     defaultChatMode := defaultChatMode config |}.

(** A message sent in a guild, without a mention of the bot. *)
Definition group_session : Session :=
  {| isDirect := false;
     userId := "u1";
     username := Some "alice";
     appel := false;
     content := "hello there";
     guild_name := Some "lounge";
     guild_id := "g7";
     elements := [mkElement "text" {[ "content" := "hello there" ]}] |}.

(** The same message with the bot mentioned. *)
Definition mention_session : Session :=
  {| isDirect := false;
     userId := "u1";
     username := Some "alice";
     appel := true;
     content := "hello there";
     guild_name := Some "lounge";
     guild_id := "g7";
     elements := [mkElement "at" {[ "name" := "luna" ]};
                  mkElement "text" {[ "content" := "hello there" ]}] |}.

Definition room (id : Z) (name master : string) (v : Visibility)
  : ConversationRoom :=
  {| roomId := id;
     roomName := name;
     conversationId := "c-" +:+ name;
     roomMasterId := master;
     visibility := v;
     preset := "chatgpt";
     model := "openai/gpt-4o";
     chatMode := "chat";
     autoUpdate := true |}.

Definition room_public : ConversationRoom := room 1 "plaza" "u2" public.
Definition room_private : ConversationRoom := room 3 "den" "u1" private.
Definition room_other : ConversationRoom := room 4 "attic" "u2" private.

(** A template-clone room whose stored preset and model are out of date. *)
Definition room_stale : ConversationRoom :=
  {| roomId := 5;
     roomName := "stale";
     conversationId := "c-stale";
     roomMasterId := "u1";
     visibility := template_clone;
     preset := "catgirl";
     model := "openai/gpt-3.5-turbo";
     chatMode := "chat";
     autoUpdate := true |}.

(** A template-clone room whose stored model alone is out of date. *)
Definition room_old_model : ConversationRoom :=
  {| roomId := 6;
     roomName := "old";
     conversationId := "c-old";
     roomMasterId := "u1";
     visibility := template_clone;
     preset := "chatgpt";
     model := "openai/gpt-3.5-turbo";
     chatMode := "chat";
     autoUpdate := true |}.

Definition room_template : ConversationRoom :=
  {| roomId := 0;
     roomName := "template";
     conversationId := "c-template";
     roomMasterId := "";
     visibility := template_clone;
     preset := "chatgpt";
     model := "openai/gpt-4o";
     chatMode := "chat";
     autoUpdate := true |}.

(** The draw 0.5. *)
Definition one_half : binary64 := mkBinary64 1 (-1) eq_refl.

(** The draw 0.5714285714285714, the Number next below 4/7: seven times it
    is [4 - 2 ^ -52] exactly, and rounds to 4. *)
Definition below_four_sevenths : binary64 := mkBinary64 5146971002709138 (-53) eq_refl.

(** More draws: the largest Number below 1, the smallest positive Number,
    the Number nearest to 1/3, and 0. *)
Definition below_one : binary64 := mkBinary64 9007199254740991 (-53) eq_refl.
Definition smallest_positive : binary64 := mkBinary64 1 (-1074) eq_refl.
Definition one_third : binary64 := mkBinary64 6004799503160661 (-54) eq_refl.
Definition zero : binary64 := mkBinary64 0 0 eq_refl.

(** The answers of a repository in which the user has joined [joined];
    a name is looked up among the joined rooms, and no name means no room. *)
Definition repository (joined : list ConversationRoom) : Collaborators :=
  {| queryJoinedConversationRoom := fun name =>
       match name with
       | Some n => find (fun r => String.eqb (roomName r) n) joined
       | None => None
       end;
     getAllJoinedConversationRoom := joined;
     queryPublicConversationRoom := None;
     getTemplateConversationRoom := Some room_template;
     getMaxConversationRoomId := 6;
     uuidv4 := "6f1c2a9e-58b1-4c0d-9d0e-0a4a3b1f7c11";
     Math_random := one_half;
     transform := fun parts => String.concat "" parts |}.

(** A template room whose conversation id is a version-4 identifier. *)
Definition room_template_uuid : ConversationRoom :=
  {| roomId := 0;
     roomName := "template";
     conversationId := "6f1c2a9e-58b1-4c0d-9d0e-0a4a3b1f7c11";
     roomMasterId := "";
     visibility := template_clone;
     preset := "chatgpt";
     model := "openai/gpt-4o";
     chatMode := "chat";
     autoUpdate := true |}.

(** A repository without joined rooms in which [uuidv4()] returns the
    identifier the template room already has. *)
Definition repository_same_id : Collaborators :=
  {| queryJoinedConversationRoom := fun _ => None;
     getAllJoinedConversationRoom := [];
     queryPublicConversationRoom := None;
     getTemplateConversationRoom := Some room_template_uuid;
     getMaxConversationRoomId := 6;
     uuidv4 := "6f1c2a9e-58b1-4c0d-9d0e-0a4a3b1f7c11";
     Math_random := one_half;
     transform := fun parts => String.concat "" parts |}.

(** The state in which [resolve_room] starts on the message [message],
    without a command and without a room hint. *)
Definition start (message : string) : ResolveRoom.State :=
  mkRunState (ResolveRoom.mkContext message None None None None) [].

End Fixtures.

(** ** The image renderer (renders/image.ts) *)

Module ImageRenderer.

(** [s.slice(0, n)] *)
Fixpoint take (n : nat) (s : string) : string :=
  match n, s with
  | S n', String c rest => String c (take n' rest)
  | _, _ => EmptyString
  end.

(** [s.slice(n)] *)
Fixpoint drop (n : nat) (s : string) : string :=
  match n, s with
  | S n', String _ rest => drop n' rest
  | _, _ => s
  end.

(** [s.indexOf(searchValue)]: the position of the first occurrence, [None]
    for the -1 of JavaScript. *)
Fixpoint indexOf (searchValue s : string) : option nat :=
  if String.prefix searchValue s then Some 0%nat
  else match s with
       | EmptyString => None
       | String _ rest => S <$> indexOf searchValue rest
       end.

(** [GetSubstitution] of ECMAScript for a string pattern, which has no
    capture groups: in the replacement text [$$] stands for a dollar sign,
    [$&] for the matched text, [$`] for the text before the match and [$']
    for the text after it; every other dollar sign stands for itself. *)
Fixpoint GetSubstitution (matched preceding following template : string)
  : string :=
  match template with
  | EmptyString => EmptyString
  | String a tail =>
      if Ascii.eqb a "$" then
        match tail with
        | EmptyString => "$"
        | String c rest =>
            if Ascii.eqb c "$" then
              "$" +:+ GetSubstitution matched preceding following rest
            else if Ascii.eqb c "&" then
              matched +:+ GetSubstitution matched preceding following rest
            else if Ascii.eqb c "`" then
              preceding +:+ GetSubstitution matched preceding following rest
            else if Ascii.eqb c "'" then
              following +:+ GetSubstitution matched preceding following rest
            else String a (GetSubstitution matched preceding following tail)
        end
      else String a (GetSubstitution matched preceding following tail)
  end.

(** [s.replace(searchValue, replaceValue)] with two strings: the first
    occurrence only. *)
Definition replace (s searchValue replaceValue : string) : string :=
  match indexOf searchValue s with
  | None => s
  | Some position =>
      let preceding := take position s in
      let following := drop (position + String.length searchValue) s in
      preceding
      +:+ GetSubstitution searchValue preceding following replaceValue
      +:+ following
  end.

(** What [render] takes from outside: the file system, [marked.parse]
    behind [_renderMarkdownToHtml], and the data URL [_textToQrcode]
    obtains from the paste service and the QR encoder. *)
Record Runtime : Type := mkRuntime {
  readFileSync : string -> string;
  _renderMarkdownToHtml : string -> string;
  _textToQrcode : string -> string
}.

(** What [render] does to the file system and to the page, in order. *)
Inductive Effect : Set :=
| WriteFileSync (path data : string)
| Reload
| Goto (url : string) (timeout : Z)
| Screenshot.

(** Lines 74-76. *)
Definition outTemplateHtml (templateHtml content qrcode : string) : string :=
  replace (replace templateHtml "${content}" content) "${qr_data}" qrcode.

(** Lines 58-95; [dirname] is [__dirname]. *)
Definition render (rt : Runtime) (dirname : string) (markdownText : string)
  : list Effect :=
  let templateHtmlPath := dirname +:+ "/../../resources/template.html" in
  let outTemplateHtmlPath := dirname +:+ "/../../resources/out.html" in
  let templateHtml := readFileSync rt templateHtmlPath in
  let qrcode := _textToQrcode rt markdownText in
  [WriteFileSync outTemplateHtmlPath
     (outTemplateHtml templateHtml (_renderMarkdownToHtml rt markdownText) qrcode);
   Reload;
   Goto ("file://" +:+ outTemplateHtmlPath) (20 * 1000);
   Screenshot].

(** [s] holds no dollar sign. *)
Fixpoint dollar_free (s : string) : bool :=
  match s with
  | EmptyString => true
  | String c rest => negb (Ascii.eqb c "$") && dollar_free rest
  end.

(** [searchValue] occurs somewhere in [s]. *)
Definition occurs (searchValue s : string) : Prop :=
  exists a b, s = a +:+ searchValue +:+ b.

End ImageRenderer.

(** ** The OpenAI requester (openai-adapter requester, types.ts) *)

Module OpenAIRequester.

(** [s.endsWith(p)] *)
Fixpoint endsWith (s p : string) : bool :=
  String.eqb s p
  || match s with
     | EmptyString => false
     | String _ rest => endsWith rest p
     end.

Definition _concatUrl (apiEndpoint url : string) : string :=
  if endsWith apiEndpoint "/" then apiEndpoint +:+ url
  else apiEndpoint +:+ "/" +:+ url.

Definition _buildHeaders : gmap string string :=
  {[ "Content-Type" := "application/json" ]}.

Inductive Method : Set := GET | POST.

(** The arguments of [this._plugin.fetch]. *)
Record Request : Type := mkRequest {
  request_url : string;
  method : Method;
  headers : gmap string string;
  body : option string
}.

(** [fetchType.RequestInit], of which the callers set [signal]. *)
Record RequestInit : Set := mkRequestInit {
  signal : option nat
}.

Section Post.

(** The values of the properties of [data]; [None] is a property that is
    [null] or [undefined]. *)
Context {Json : Type}.

Variable JSON_stringify : gmap string (option Json) -> string.

(** Lines 298-302: the [for ... in] loop deletes from [data] every key
    whose value is nullish. *)
Definition delete_nullish (data : gmap string (option Json))
  : gmap string (option Json) :=
  foldr
    (fun (entry : string * option Json) (data : gmap string (option Json)) =>
       match data !! entry.1 with
       | Some None => delete entry.1 data
       | _ => data
       end)
    data (map_to_list data).

Definition _post (apiEndpoint url : string) (data : gmap string (option Json))
  (params : RequestInit) : Request :=
  {| request_url := _concatUrl apiEndpoint url;
     method := POST;
     headers := _buildHeaders;
     body := Some (JSON_stringify (delete_nullish data)) |}.

End Post.

Definition _get (apiEndpoint url : string) (headers : gmap string string)
  : Request :=
  {| request_url := _concatUrl apiEndpoint url;
     method := GET;
     headers := headers;
     body := None |}.

(** *** completionStream *)

(** types.ts, [ChatCompletionRequestMessageFunctionCall]. *)
Record ChatCompletionRequestMessageFunctionCall : Set := mkFunctionCall {
  name : option string;
  arguments : option string
}.

(** types.ts, the [delta] of a choice. *)
Record Delta : Set := mkDelta {
  delta_content : option string;
  role : option string;
  function_call : option ChatCompletionRequestMessageFunctionCall
}.

(** types.ts, a choice, without its [message]. *)
Record Choice : Set := mkChoice {
  index : Z;
  finish_reason : option string;
  delta : Delta
}.

(** types.ts, [ChatCompletionResponse], with the fields the stream reads:
    [choices], read through [?.], and whether [(data as any).error] is
    truthy. *)
Record ChatCompletionResponse : Set := mkResponse {
  error : bool;
  choices : option (list Choice)
}.

(** The message chunk [convertDeltaToMessageChunk] builds: the stream reads
    and overwrites its [content]. *)
Record BaseMessageChunk : Set := mkMessageChunk {
  chunk_role : string;
  content : string
}.

Record ChatGenerationChunk : Set := mkGenerationChunk {
  message : BaseMessageChunk;
  text : string
}.

(** [ChatLunaErrorCode]: the one code the requester uses. *)
Inductive ChatLunaErrorCode : Set := API_REQUEST_FAILED.

(** What a [ChatLunaError] of the requester wraps. *)
Inductive Cause : Set :=
| SyntaxError (chunk : string)
| ErrorResponse (chunk : string)
| IteratorError
| RequestError
| EmbeddingsError.

Record ChatLunaError : Set := mkChatLunaError {
  code : ChatLunaErrorCode;
  cause : Cause
}.

(** What the stream takes from outside: [JSON.parse] on a chunk ([None]
    when it throws) and [convertDeltaToMessageChunk] of the adapter's
    utilities. *)
Record Runtime : Type := mkRuntime {
  JSON_parse : string -> option ChatCompletionResponse;
  convertDeltaToMessageChunk : Delta -> string -> BaseMessageChunk
}.

(** What [sseIterable(response)] hands to [for await]: an event with its
    [data], or a failure of the iterator. *)
Inductive SseItem : Set :=
| SseEvent (data : string)
| SseFailure.

(** The variables of the loop. *)
Record LoopState : Set := mkLoopState {
  accumulated : string;
  defaultRole : string;
  errorCount : nat
}.

(** How the generator ends. *)
Inductive StreamEnd : Set :=
| Finished
| Failed (e : ChatLunaError).

(** One pass through the [try] block of lines 165-204. *)
Inductive Pass : Set :=
| Yield (chunk : ChatGenerationChunk) (st : LoopState)
| Continue
| Caught (e : Cause).

Definition pass (rt : Runtime) (findTools : bool) (st : LoopState)
  (chunk : string) : Pass :=
  match JSON_parse rt chunk with
  | None => Caught (SyntaxError chunk)
  | Some data =>
      if error data then Caught (ErrorResponse chunk)
      else
        match choices data with
        | Some (choice :: _) =>
            let delta := delta choice in
            let messageChunk :=
              convertDeltaToMessageChunk rt delta (defaultRole st) in
            let defaultRole' :=
              if (0 <? nullish (String.length <$> role delta) 0)%nat
              then nullish (role delta) (defaultRole st)
              else defaultRole st in
            let content' :=
              if findTools then accumulated st
              else accumulated st +:+ content messageChunk in
            let messageChunk' :=
              if findTools then messageChunk
              else mkMessageChunk (chunk_role messageChunk) content' in
            Yield (mkGenerationChunk messageChunk' (content messageChunk'))
                  (mkLoopState content' defaultRole' (errorCount st))
        | _ => Continue
        end
  end.

(** Lines 158-217: the [for await] loop. *)
Fixpoint loop (rt : Runtime) (findTools : bool) (st : LoopState)
  (items : list SseItem) : list ChatGenerationChunk * StreamEnd :=
  match items with
  | [] => ([], Finished)
  | SseFailure :: _ => ([], Failed (mkChatLunaError API_REQUEST_FAILED IteratorError))
  | SseEvent chunk :: rest =>
      if String.eqb chunk "[DONE]" then ([], Finished)
      else
        match pass rt findTools st chunk with
        | Yield generationChunk st' =>
            let '(chunks, e) := loop rt findTools st' rest in
            (generationChunk :: chunks, e)
        | Continue => loop rt findTools st rest
        | Caught e =>
            if (5 <? errorCount st)%nat
            then ([], Failed (mkChatLunaError API_REQUEST_FAILED e))
            else loop rt findTools
                   (mkLoopState (accumulated st) (defaultRole st)
                                (errorCount st + 1))
                   rest
        end
  end.

(** Lines 128-131. *)
Definition completion_url (provider : string) : string :=
  if negb (String.eqb provider "auto")
  then "chat/completions" +:+ "?provider=" +:+ provider
  else "chat/completions".

(** Lines 124-225: what the generator yields and how it ends, for the
    answer of [_post] ([None] when the request fails). *)
Definition completionStream (rt : Runtime) (findTools : bool)
  (response : option (list SseItem)) : list ChatGenerationChunk * StreamEnd :=
  match response with
  | None => ([], Failed (mkChatLunaError API_REQUEST_FAILED RequestError))
  | Some items => loop rt findTools (mkLoopState "" "assistant" 0) items
  end.

(** *** embeddings *)

(** types.ts, [CreateEmbeddingResponseDataInner]. *)
Record CreateEmbeddingResponseDataInner (number : Type) : Type := mkInner {
  inner_index : Z;
  object : string;
  embedding : list number
}.

Arguments mkInner {number} inner_index object embedding.
Arguments embedding {number} c.

(** types.ts, [CreateEmbeddingResponse], with the field [embeddings] reads;
    [None] is a response without [data]. *)
Record CreateEmbeddingResponse (number : Type) : Type := mkEmbeddingResponse {
  data : option (list (CreateEmbeddingResponseDataInner number))
}.

Arguments mkEmbeddingResponse {number} data.
Arguments data {number} c.

(** Lines 227-263, for the text of the answer ([None] when the request
    fails) and [JSON.parse] ([None] when it throws). *)
Definition embeddings {number : Type}
  (parse : string -> option (CreateEmbeddingResponse number))
  (response : option string) : list (list number) + ChatLunaError :=
  match response ≫= parse with
  | Some response =>
      match data response with
      | Some (first :: others) => inl (embedding <$> first :: others)
      | _ => inr (mkChatLunaError API_REQUEST_FAILED EmbeddingsError)
      end
  | None => inr (mkChatLunaError API_REQUEST_FAILED EmbeddingsError)
  end.

(** *** getModels *)

Record Model : Set := mkModel {
  id : string
}.

Record ModelsResponse : Set := mkModelsResponse {
  models : option (list Model)
}.

(** The server as [getModels] sees it: the answers still to come, one per
    request ([None] for a request that fails), and the requests made. *)
Record Network : Type := mkNetwork {
  pending : list (option string);
  sent : list Request
}.

Definition fetch (request : Request) (net : Network) : option string * Network :=
  match pending net with
  | [] => (None, mkNetwork [] (sent net ++ [request]))
  | answer :: rest => (answer, mkNetwork rest (sent net ++ [request]))
  end.

(** The [data] the error message of [getModels] is built from. *)
Inductive Seen : Set :=
| Undefined
| Raw (text : string)
| Parsed (response : ModelsResponse).

(** Line 280, inside the [try]. *)
Definition model_ids (response : ModelsResponse) : list string + Seen :=
  match models response with
  | Some list => inl (id <$> list)
  | None => inr (Parsed response)
  end.

(** Lines 265-291. *)
Definition getModels (parse : string -> option ModelsResponse)
  (apiEndpoint : string) (net : Network) : (list string + Seen) * Network :=
  let '(answer, net) := fetch (_get apiEndpoint "models" _buildHeaders) net in
  match answer with
  | None => (inr Undefined, net)
  | Some text =>
      match parse text with
      | None => (inr (Raw text), net)
      | Some response =>
          if match models response with
             | Some list => (length list <? 1)%nat
             | None => false
             end
          then
            let '(answer, net) :=
              fetch (_get apiEndpoint "models"
                       {[ "Content-Type" := "application/json" ]}) net in
            match answer with
            | None => (inr (Parsed response), net)
            | Some text =>
                match parse text with
                | None => (inr (Raw text), net)
                | Some response => (model_ids response, net)
                end
            end
          else (model_ids response, net)
      end
  end.

(** The texts yielded without tools are the running concatenations of the
    pieces: [running c [d1; d2; ...] = [c d1; c d1 d2; ...]]. *)
Fixpoint running (c : string) (pieces : list string) : list string :=
  match pieces with
  | [] => []
  | d :: rest => (c +:+ d) :: running (c +:+ d) rest
  end.

(** A chunk the [try] block fails on: it does not parse, or it carries an
    [error]. *)
Definition bad (rt : Runtime) (chunk : string) : bool :=
  match JSON_parse rt chunk with
  | None => true
  | Some data => error data
  end.

(** What the [catch] of line 205 receives for a bad chunk: the
    [SyntaxError] of [JSON.parse], or the error thrown on line 170. *)
Definition caught (rt : Runtime) (chunk : string) : Cause :=
  match JSON_parse rt chunk with
  | None => SyntaxError chunk
  | Some _ => ErrorResponse chunk
  end.

End OpenAIRequester.

(** ** More on traces *)

Definition is_switch (e : Event) : bool :=
  match e with SwitchConversationRoom _ _ => true | _ => false end.

Definition is_create (e : Event) : bool :=
  match e with CreateConversationRoom _ _ => true | _ => false end.

Definition is_send (e : Event) : bool :=
  match e with Send _ => true | _ => false end.

(** The shapes of what steps 1 to 4 of [resolve_room] add to the trace in
    one run: nothing; a switch and its log line; the log line of a public
    room; the log line and the creation of a cloned room. *)
Definition selection_trace (evs : list Event) : Prop :=
  evs = []
  \/ (exists user key text,
        evs = [SwitchConversationRoom user key; LogSuccess text])
  \/ (exists text, evs = [LogSuccess text])
  \/ (exists text user room,
        evs = [LogSuccess text; CreateConversationRoom user room]).

(** The shapes of what step 5 adds: nothing; one [clearCache]; an upsert
    followed by [clearChatHistory] of the same room and a log line. *)
Definition sync_trace (evs : list Event) : Prop :=
  evs = []
  \/ (exists room, evs = [ClearCache room])
  \/ (exists room text,
        evs = [Upsert room; ClearChatHistory room; LogDebug text]).

(** The log line of step 3 of [resolve_room] (line 128). *)
Definition adopted_public_log (session : Session) (room : ConversationRoom)
  : string :=
  "已为用户 " +:+ userId session +:+ " 自动切换到公共房间 " +:+ roomName room +:+ "。".

(** What one element contributes to the text [read_chat_message] returns. *)
Definition element_text (e : Element) : string :=
  if String.eqb (type e) "text" then nullish (attrs e !! "content") EmptyString
  else if String.eqb (type e) "at" then
    match attrs e !! "name" with
    | Some name => if String.eqb name EmptyString then EmptyString else "@" +:+ name
    | None => EmptyString
    end
  else EmptyString.

(** ** More inputs *)

Module MoreFixtures.

(** [Fixtures.repository] with other answers for the public room and the
    template room. *)
Definition repository_with (joined : list ConversationRoom)
  (publicRoom templateRoom : option ConversationRoom) : Collaborators :=
  {| queryJoinedConversationRoom :=
       queryJoinedConversationRoom (Fixtures.repository joined);
     getAllJoinedConversationRoom := joined;
     queryPublicConversationRoom := publicRoom;
     getTemplateConversationRoom := templateRoom;
     getMaxConversationRoomId :=
       getMaxConversationRoomId (Fixtures.repository joined);
     uuidv4 := uuidv4 (Fixtures.repository joined);
     Math_random := Math_random (Fixtures.repository joined);
     transform := transform (Fixtures.repository joined) |}.

(** The state in which [resolve_room] starts on [message] with the given
    command and room hint. *)
Definition start_with (message : string) (command name : option string)
  : ResolveRoom.State :=
  mkRunState (ResolveRoom.mkContext message command name None None) [].

(** A page runtime: the template read from disk, a stand-in for
    [marked.parse] that wraps the text in a paragraph, and a fixed QR data
    URL. *)
Definition page_runtime (templateHtml : string) : ImageRenderer.Runtime :=
  {| ImageRenderer.readFileSync := fun _ => templateHtml;
     ImageRenderer._renderMarkdownToHtml := fun text => "<p>" +:+ text +:+ "</p>";
     ImageRenderer._textToQrcode := fun _ => "data:image/png;base64,iVBORw0KGgo=" |}.

Definition page_template : string :=
  "<body>${content}<img src='${qr_data}'></body>".

(** A stream runtime: a chunk parses when it starts with an opening brace;
    a chunk that holds "error" carries an error, the chunk "{}" has no
    choice, and every other chunk has one choice whose delta content is the
    chunk itself. *)
Definition stream_runtime : OpenAIRequester.Runtime :=
  {| OpenAIRequester.JSON_parse := fun chunk =>
       if String.prefix "{" chunk then
         Some (OpenAIRequester.mkResponse
                 (String.eqb chunk "{error}")
                 (if String.eqb chunk "{}" then Some []
                  else Some [OpenAIRequester.mkChoice 0 None
                               (OpenAIRequester.mkDelta (Some chunk) None None)]))
       else None;
     OpenAIRequester.convertDeltaToMessageChunk := fun delta role =>
       OpenAIRequester.mkMessageChunk role
         (nullish (OpenAIRequester.delta_content delta) EmptyString) |}.

(** A parser of embedding answers: "[]" has an empty [data], "[1]" one
    vector, anything else does not parse. *)
Definition parse_embeddings (text : string)
  : option (OpenAIRequester.CreateEmbeddingResponse Z) :=
  if String.eqb text "[]" then Some (OpenAIRequester.mkEmbeddingResponse (Some []))
  else if String.eqb text "[1]" then
    Some (OpenAIRequester.mkEmbeddingResponse
            (Some [OpenAIRequester.mkInner 0 "embedding" [1; 2; 3]]))
  else None.

(** A parser of model lists: "[]" is the empty list, "[gpt]" one model. *)
Definition parse_models (text : string) : option OpenAIRequester.ModelsResponse :=
  if String.eqb text "[]" then Some (OpenAIRequester.mkModelsResponse (Some []))
  else if String.eqb text "[gpt]" then
    Some (OpenAIRequester.mkModelsResponse (Some [OpenAIRequester.mkModel "gpt-4o"]))
  else None.

End MoreFixtures.

(** * Properties *)

(** ** Numbers and random indices *)

Section Random.

(** The same rational at a smaller exponent. *)
Lemma dyadic_shift (m e k : Z) :
  k <= e -> (dyadic m e == dyadic (m * 2 ^ (e - k)) k)%Q.
Proof.
  intros Hk. unfold dyadic.
  rewrite inject_Z_mult, Zpower_Qpower by lia.
  change (inject_Z 2) with 2%Q.
  replace e with ((e - k) + k) at 1 by lia.
  rewrite Qpower_plus by discriminate. ring.
Qed.

Lemma dyadic_le (m1 m2 e : Z) : m1 <= m2 -> (dyadic m1 e <= dyadic m2 e)%Q.
Proof.
  intros H. unfold dyadic. apply Qmult_le_compat_r.
  - rewrite <- Zle_Qle; assumption.
  - apply Qpower_0_le. discriminate.
Qed.

Lemma dyadic_lt (m1 m2 e : Z) : m1 < m2 -> (dyadic m1 e < dyadic m2 e)%Q.
Proof.
  intros H. unfold dyadic. apply Qmult_lt_compat_r.
  - apply Qpower_0_lt. reflexivity.
  - rewrite <- Zlt_Qlt; assumption.
Qed.

Lemma dyadic_lt_inv (m1 m2 e : Z) : (dyadic m1 e < dyadic m2 e)%Q -> m1 < m2.
Proof.
  intros H. destruct (Z_lt_le_dec m1 m2) as [|Hle]; [assumption|].
  apply (dyadic_le _ _ e) in Hle. apply Qle_not_lt in Hle. contradiction.
Qed.

Lemma dyadic_plus (m1 m2 e : Z) :
  (dyadic m1 e + dyadic m2 e == dyadic (m1 + m2) e)%Q.
Proof. unfold dyadic. rewrite inject_Z_plus. ring. Qed.

Lemma dyadic_nonneg (m e : Z) : 0 <= m -> (0 <= dyadic m e)%Q.
Proof.
  intros H. unfold dyadic. apply Qmult_le_0_compat.
  - rewrite <- (Zle_Qle 0); assumption.
  - apply Qpower_0_le. discriminate.
Qed.

Lemma dyadic_times_epsilon (m e : Z) :
  (dyadic m e * epsilon == dyadic m (e - 53))%Q.
Proof.
  unfold dyadic. unfold Z.sub. rewrite Qpower_plus by discriminate.
  assert (H : (epsilon == 2 ^ (- (53)))%Q) by reflexivity.
  rewrite H. ring.
Qed.

Lemma dyadic_times (m e n : Z) :
  (dyadic m e * inject_Z n == dyadic (m * n) e)%Q.
Proof. unfold dyadic. rewrite inject_Z_mult. ring. Qed.


Lemma binary64_bounds (u : binary64) :
  0 <= mantissa u < 2 ^ 53 /\ -1074 <= exponent u <= 971.
Proof.
  destruct u as [m e Hb]. simpl.
  apply andb_prop in Hb as [Hb H4]. apply andb_prop in Hb as [Hb H3].
  apply andb_prop in Hb as [H1 H2]. lia.
Qed.

(** The rounded quotient is within one half of the exact one. *)
Lemma round_half_even_spec (m s : Z) :
  0 <= m -> 0 < s ->
  0 <= round_half_even m s
  /\ 2 * (round_half_even m s * 2 ^ s - m) <= 2 ^ s
  /\ 2 * (m - round_half_even m s * 2 ^ s) <= 2 ^ s.
Proof.
  intros Hm Hs. unfold round_half_even.
  rewrite Z.shiftr_div_pow2, Z.land_ones, Z.shiftl_1_l by lia.
  assert (Hpow : 2 ^ s = 2 * 2 ^ (s - 1)).
  { replace s with (Z.succ (s - 1)) at 1 by lia. rewrite Z.pow_succ_r; lia. }
  assert (Hh : 0 < 2 ^ (s - 1)) by (apply Z.pow_pos_nonneg; lia).
  pose proof (Z.div_mod m (2 ^ s) ltac:(lia)) as Hdm.
  pose proof (Z.mod_pos_bound m (2 ^ s) ltac:(lia)) as Hr.
  assert (Hq : 0 <= m / 2 ^ s) by (apply Z.div_pos; lia).
  set (q := m / 2 ^ s) in *. set (r := m mod 2 ^ s) in *.
  rewrite Hpow in *. set (h := 2 ^ (s - 1)) in *.
  destruct (Z.ltb_spec r h); [nia|].
  destruct (Z.ltb_spec h r); [nia|].
  destruct (Z.even q); nia.
Qed.

(** The binary64 product is the exact one up to a relative error of
    [epsilon]. *)
Lemma times_error (u : binary64) (n : Z) :
  0 <= n ->
  (u * inject_Z n * (1 - epsilon) <= times u n
   /\ times u n <= u * inject_Z n * (1 + epsilon))%Q.
Proof.
  intros Hn. destruct (binary64_bounds u) as [Hm He].
  unfold binary64_value. rewrite dyadic_times.
  unfold times. set (p := mantissa u * n). set (e := exponent u) in *.
  assert (Hp : 0 <= p) by (unfold p; nia).
  pose proof (dyadic_nonneg p e Hp) as Hx.
  assert (Heps : (dyadic p e * epsilon == dyadic p (e - 53))%Q)
    by apply dyadic_times_epsilon.
  destruct (Z.eqb_spec p 0) as [H0|H0].
  { rewrite H0. unfold dyadic. change (inject_Z 0) with 0%Q.
    split; ring_simplify; apply Qle_refl. }
  destruct (Z.leb_spec (Z.max (Z.log2 p + e - 52) (-1074)) e) as [Hg|Hg].
  { unfold epsilon. split; lra. }
  assert (Hmax : Z.max (Z.log2 p + e - 52) (-1074) = Z.log2 p + e - 52) by lia.
  rewrite Hmax in *. clear Hmax.
  destruct (Z.log2_spec p ltac:(lia)) as [Hlo _].
  set (L := Z.log2 p) in *.
  replace (L + e - 52 - e) with (L - 52) by lia.
  destruct (round_half_even_spec p (L - 52) Hp ltac:(lia)) as (_ & Hup & Hdown).
  set (q := round_half_even p (L - 52)) in *.
  assert (Hpow : 2 ^ L = 2 ^ (L - 52) * 2 ^ 52).
  { assert (HL : L = (L - 52) + 52) by lia. rewrite HL at 1. apply Z.pow_add_r; lia. }
  assert (Hh : 0 < 2 ^ (L - 52)) by (apply Z.pow_pos_nonneg; lia).
  set (a := 2 ^ (L - 52)) in *.
  (* everything at the exponent e - 53 *)
  assert (Hr : (dyadic q (L + e - 52) == dyadic (q * a * 2 ^ 53) (e - 53))%Q).
  { rewrite (dyadic_shift q (L + e - 52) (e - 53)) by lia.
    replace (L + e - 52 - (e - 53)) with ((L - 52) + 53) by lia.
    rewrite Z.pow_add_r by lia. fold a. rewrite Z.mul_assoc. reflexivity. }
  assert (Hxs : (dyadic p e == dyadic (p * 2 ^ 53) (e - 53))%Q).
  { rewrite (dyadic_shift p e (e - 53)) by lia.
    replace (e - (e - 53)) with 53 by lia. reflexivity. }
  assert (Hupper : (dyadic q (L + e - 52) <= dyadic p e + dyadic p (e - 53))%Q).
  { rewrite Hr, Hxs, dyadic_plus. apply dyadic_le. nia. }
  assert (Hlower : (dyadic p e <= dyadic q (L + e - 52) + dyadic p (e - 53))%Q).
  { rewrite Hr, Hxs, dyadic_plus. apply dyadic_le. nia. }
  rewrite <- Heps in Hupper, Hlower. unfold epsilon in *. split; lra.
Qed.

Lemma times_nonneg (u : binary64) (n : Z) : 0 <= n -> (0 <= times u n)%Q.
Proof.
  intros Hn. destruct (times_error u n Hn) as [Hlo _].
  destruct (binary64_bounds u) as [Hm _].
  assert (Hx : (0 <= u * inject_Z n)%Q).
  { unfold binary64_value. rewrite dyadic_times. apply dyadic_nonneg. nia. }
  unfold epsilon in *. lra.
Qed.

(** The largest Number below 1 is [1 - epsilon]. *)
Lemma binary64_below_one (u : binary64) : (u < 1)%Q -> (u <= 1 - epsilon)%Q.
Proof.
  intros Hu. destruct (binary64_bounds u) as [Hm He].
  unfold binary64_value in *. set (m := mantissa u) in *. set (e := exponent u) in *.
  assert (H1 : (1 == dyadic (2 ^ 53 * 2 ^ 1021) (-1074))%Q) by reflexivity.
  assert (H2 : (1 - epsilon == dyadic (2 ^ 53 * 2 ^ 1021 - 2 ^ 1021) (-1074))%Q)
    by reflexivity.
  rewrite H2. rewrite H1 in Hu.
  rewrite (dyadic_shift m e (-1074)) in Hu |- * by lia.
  apply dyadic_lt_inv in Hu. apply dyadic_le.
  replace (e - -1074) with (e + 1074) in * by lia.
  assert (HP : 0 < 2 ^ 1021) by (apply Z.pow_pos_nonneg; lia).
  set (P := 2 ^ 1021) in *.
  destruct (Z_le_gt_dec 1021 (e + 1074)) as [Hbig|Hsmall].
  - replace (e + 1074) with (e + 53 + 1021) in * by lia.
    rewrite Z.pow_add_r in * by lia. fold P in Hu |- *.
    assert (HB : 0 < 2 ^ (e + 53)) by (apply Z.pow_pos_nonneg; lia).
    set (B := 2 ^ (e + 53)) in *. nia.
  - assert (Hle : 2 * 2 ^ (e + 1074) <= P).
    { unfold P. replace 1021 with (Z.succ 1020) by lia. rewrite Z.pow_succ_r by lia.
      apply Z.mul_le_mono_nonneg_l; [lia|]. apply Z.pow_le_mono_r; lia. }
    assert (HB : 0 < 2 ^ (e + 1074)) by (apply Z.pow_pos_nonneg; lia).
    set (B := 2 ^ (e + 1074)) in *. nia.
Qed.

Lemma Qfloor_eq_iff (x : Q) (k : Z) :
  Qfloor x = k <-> (inject_Z k <= x /\ x < inject_Z (k + 1))%Q.
Proof.
  split.
  - intros <-. split; [apply Qfloor_le | apply Qlt_floor].
  - intros [Hlo Hhi]. apply Z.le_antisymm.
    + apply Z.lt_succ_r. rewrite Zlt_Qlt. unfold Z.succ.
      eapply Qle_lt_trans; [apply Qfloor_le | exact Hhi].
    + rewrite <- (Qfloor_Z k). apply Qfloor_resp_le; assumption.
Qed.

(** For a draw in [[0, 1)] the index falls inside the array. *)
Lemma random_index_range (u : binary64) (n : nat) :
  (0 < n)%nat -> (0 <= u)%Q -> (u < 1)%Q ->
  0 <= random_index u n < Z.of_nat n.
Proof.
  intros Hn _ Hhi. unfold random_index.
  pose proof (times_nonneg u (Z.of_nat n) ltac:(lia)) as H0.
  destruct (times_error u (Z.of_nat n) ltac:(lia)) as [_ Hup].
  apply binary64_below_one in Hhi.
  assert (Hn1 : (1 <= inject_Z (Z.of_nat n))%Q) by (rewrite <- (Zle_Qle 1); lia).
  assert (Hx : (u * inject_Z (Z.of_nat n) <= (1 - epsilon) * inject_Z (Z.of_nat n))%Q).
  { apply Qmult_le_compat_r; [exact Hhi | lra]. }
  set (x := (u * inject_Z (Z.of_nat n))%Q) in *.
  split.
  - change 0 with (Qfloor 0). apply Qfloor_resp_le. exact H0.
  - rewrite Zlt_Qlt. eapply Qle_lt_trans; [apply Qfloor_le |].
    unfold epsilon in *. lra.
Qed.

(** Index [k] is drawn when [u * n] lies in [[k, k + 1)] by a relative margin
    of [epsilon], and only when it does up to that margin: the [n] indices
    are drawn on intervals of draws that are [[k/n, (k+1)/n)] up to the
    rounding of the product.  At the ends of these intervals the rounding
    decides: see [random_index_rounds_up]. *)
Lemma random_index_near_uniform (u : binary64) (n : nat) (k : Z) :
  (random_index u n = k ->
   (inject_Z k <= u * inject_Z (Z.of_nat n) * (1 + epsilon)
    /\ u * inject_Z (Z.of_nat n) * (1 - epsilon) < inject_Z (k + 1))%Q)
  /\ ((inject_Z k <= u * inject_Z (Z.of_nat n) * (1 - epsilon)
       /\ u * inject_Z (Z.of_nat n) * (1 + epsilon) < inject_Z (k + 1))%Q ->
      random_index u n = k).
Proof.
  unfold random_index. rewrite Qfloor_eq_iff.
  destruct (times_error u (Z.of_nat n) ltac:(lia)) as [Hlo Hup].
  set (x := (u * inject_Z (Z.of_nat n))%Q) in *.
  split; intros [H1 H2]; split; lra.
Qed.

(** Seven times the Number next below 4/7 rounds up to 4: the exact product
    has floor 3, the product of the code has floor 4. *)
Lemma random_index_rounds_up :
  random_index Fixtures.below_four_sevenths 7 = 4
  /\ Qfloor (Fixtures.below_four_sevenths * 7) = 3.
Proof. split; reflexivity. Qed.

(** On six draws and the lengths 1 to 200, [times] is the product the
    Standard Library's specification of binary64 multiplication gives. *)
Example times_agrees_with_SFmul :
  forallb (fun u => forallb (times_agrees u) (Z.of_nat <$> seq 1 200))
    [Fixtures.zero; Fixtures.smallest_positive; Fixtures.one_third;
     Fixtures.one_half; Fixtures.below_four_sevenths; Fixtures.below_one]
  = true.
Proof. vm_compute. reflexivity. Qed.

(** The largest draw never selects the index [length]. *)
Example random_index_below_one :
  forallb (fun n => random_index Fixtures.below_one n =? Z.of_nat n - 1)
    (seq 1 200)
  = true.
Proof. vm_compute. reflexivity. Qed.

(** A draw in [[0, 1)] always selects an element of a non-empty array. *)
Lemma js_index_random {A : Type} (arr : list A) (u : binary64) :
  arr <> [] -> (0 <= u)%Q -> (u < 1)%Q ->
  exists k x,
    random_index u (length arr) = Z.of_nat k
    /\ arr !! k = Some x
    /\ js_index arr (random_index u (length arr)) = Some x.
Proof.
  intros Hne Hlo Hhi.
  assert (Hlen : (0 < length arr)%nat) by (destruct arr; [done | simpl; lia]).
  destruct (random_index_range u (length arr) Hlen Hlo Hhi) as [H0 H1].
  destruct (lookup_lt_is_Some_2 arr (Z.to_nat (random_index u (length arr))))
    as [x Hx]; [lia |].
  exists (Z.to_nat (random_index u (length arr))), x.
  split; [lia |]. split; [exact Hx |].
  unfold js_index. destruct (Z.ltb_spec (random_index u (length arr)) 0); [lia | exact Hx].
Qed.

End Random.

(** ** read_chat_message *)

Section ReadChatMessageFacts.

Import ReadChatMessage.

Lemma visit_chars (chars : list ascii) (result : list (option string)) :
  foldl visit result (ItemChar <$> chars) = result.
Proof.
  revert result. induction chars as [| c chars IH]; intros result; [done |].
  simpl. apply IH.
Qed.

(** C10: with [context.options.message] null and a primitive string in
    [context.message], the handler does not return [SKIPPED]: it iterates
    the string one character at a time, no item has a [type], nothing is
    pushed, and the handler returns the empty string, which the executor
    turns into "message := empty string, STOP". *)
Theorem read_chat_message_primitive_string
  (session : Session) (context : ChainMiddlewareContext) (s : string) :
  options_message context = None ->
  message context = Primitive s ->
  read_chat_message session context <> Normal (Signal SKIPPED)
  /\ (exists items,
        iterate (Primitive s) = Some items
        /\ length items = String.length s
        /\ Forall (fun it => item_type it = None) items
        /\ foldl visit [] items = [])
  /\ read_chat_message session context = Normal (Text "")
  /\ interpret (Text "") context = (STOP, mkContext (Primitive "") None).
Proof.
  intros Hopt Hmsg.
  assert (Hrun : read_chat_message session context = Normal (Text "")).
  { unfold read_chat_message. rewrite Hopt, Hmsg. simpl.
    by rewrite visit_chars. }
  split; [by rewrite Hrun |].
  split.
  - exists (ItemChar <$> list_ascii_of_string s). split; [done |].
    split.
    { rewrite length_fmap. clear. induction s as [| c s IH]; [done |].
      simpl. by rewrite IH. }
    split; [| apply visit_chars].
    apply Forall_fmap, Forall_true. done.
  - split; [exact Hrun |]. unfold interpret. by rewrite Hopt.
Qed.

Lemma read_chat_message_primitive_string_witness :
  read_chat_message Fixtures.group_session (mkContext (Primitive "hello") None)
  = Normal (Text "").
Proof.
  apply (read_chat_message_primitive_string Fixtures.group_session
           (mkContext (Primitive "hello") None) "hello"); reflexivity.
Defined.

End ReadChatMessageFacts.

(** ** check_room *)

Section CheckRoomFacts.

Import CheckRoom.

Variables (config : Config) (env : Collaborators) (session : Session).

(** What the handler does when [context.options.room] is set: the outcome
    is decided by [rooms.every(...)]. *)
Lemma check_room_set (st : State) (room : ConversationRoom) :
  options_room (context st) = Some room ->
  run_handler (check_room config env session) st =
    if forallb (same_room room) (getAllJoinedConversationRoom env)
    then (Returned CONTINUE,
          mkRunState (mkContext (message (context st)) (Some room)) (trace st))
    else (Returned STOP,
          mkRunState (mkContext (Some (not_joined_notice room)) (Some room))
                     (trace st)).
Proof.
  intros Hroom. destruct st as [[msg r] tr]. simpl in Hroom. subst r.
  unfold run_handler, check_room, bind, get_context. simpl.
  by destruct (forallb _ _).
Qed.

(** C7: with [context.options.room] unset, an empty joined set gives the
    "join a room first" message and [STOP]; a non-empty one gives the room
    at index [Math.floor(Math.random() * rooms.length)], a switch to it, a
    notice sent to the user and [CONTINUE].  The product is the binary64
    one: index [k] is drawn when [random * length] lies in [[k, k + 1)] by
    a relative margin of [2 ^ -53], and only when it does up to that margin,
    so that the indices are drawn on intervals of draws of the same length
    up to the rounding of the product. *)
Theorem check_room_unset (st : State) :
  options_room (context st) = None ->
  (0 <= Math_random env)%Q -> (Math_random env < 1)%Q ->
  let rooms := getAllJoinedConversationRoom env in
  (rooms = [] ->
   run_handler (check_room config env session) st =
     (Returned STOP,
      mkRunState (mkContext (Some join_first_notice) None) (trace st)))
  /\ (rooms <> [] ->
      exists (k : nat) (room : ConversationRoom),
        random_index (Math_random env) (length rooms) = Z.of_nat k
        /\ rooms !! k = Some room
        /\ run_handler (check_room config env session) st =
             (Returned CONTINUE,
              mkRunState (mkContext (message (context st)) (Some room))
                (trace st ++
                   [SwitchConversationRoom (userId session) (ByName (roomName room));
                    Send (switched_notice room)])))
  /\ (forall k : Z,
        let x := (Math_random env * inject_Z (Z.of_nat (length rooms)))%Q in
        (random_index (Math_random env) (length rooms) = k ->
         (inject_Z k <= x * (1 + epsilon) /\ x * (1 - epsilon) < inject_Z (k + 1))%Q)
        /\ ((inject_Z k <= x * (1 - epsilon) /\ x * (1 + epsilon) < inject_Z (k + 1))%Q ->
            random_index (Math_random env) (length rooms) = k)).
Proof.
  intros Hroom Hlo Hhi rooms.
  destruct st as [[msg r] tr]. simpl in Hroom. subst r.
  split; [| split].
  - intros Hnil.
    unfold run_handler, check_room, bind, get_context. simpl.
    fold rooms. by rewrite Hnil.
  - intros Hne.
    destruct (js_index_random rooms (Math_random env) Hne Hlo Hhi)
      as (k & room & Hk & Hlook & Hidx).
    exists k, room. split; [exact Hk |]. split; [exact Hlook |].
    unfold run_handler, check_room, bind, get_context. simpl.
    fold rooms. rewrite Hidx.
    destruct rooms as [| r0 rs]; [done |]. simpl.
    by rewrite <- app_assoc.
  - intros k. apply random_index_near_uniform.
Qed.

End CheckRoomFacts.

Lemma check_room_unset_witness :
  run_handler
    (CheckRoom.check_room Fixtures.config
       (Fixtures.repository [Fixtures.room_public; Fixtures.room_private])
       Fixtures.group_session)
    (mkRunState (CheckRoom.mkContext None None) [])
  = (Returned CONTINUE,
     mkRunState (CheckRoom.mkContext None (Some Fixtures.room_private))
       [SwitchConversationRoom "u1" (ByName "den");
        Send (CheckRoom.switched_notice Fixtures.room_private)]).
Proof.
  destruct (check_room_unset Fixtures.config
              (Fixtures.repository [Fixtures.room_public; Fixtures.room_private])
              Fixtures.group_session
              (mkRunState (CheckRoom.mkContext None None) []))
    as (_ & Hpick & _); [reflexivity | done | done |].
  destruct Hpick as (k & room & Hk & Hlook & Hrun); [done |].
  rewrite Hrun.
  assert (k = 1%nat) as ->.
  { change (random_index _ _) with 1 in Hk. lia. }
  simpl in Hlook. by injection Hlook as <-.
Defined.

(** C2, at two inputs the handler can receive.  A user who has joined the
    rooms "den" and "plaza" and whose context holds "den" is stopped with
    the "you have not joined" message, because "plaza" fails the [every]
    test; a user who has joined no room at all and whose context holds "den"
    passes, because [every] holds of the empty array. *)
Theorem check_room_every_not_membership :
  run_handler
    (CheckRoom.check_room Fixtures.config
       (Fixtures.repository [Fixtures.room_private; Fixtures.room_public])
       Fixtures.group_session)
    (mkRunState (CheckRoom.mkContext None (Some Fixtures.room_private)) [])
  = (Returned STOP,
     mkRunState
       (CheckRoom.mkContext (Some (CheckRoom.not_joined_notice Fixtures.room_private))
          (Some Fixtures.room_private)) [])
  /\ run_handler
       (CheckRoom.check_room Fixtures.config (Fixtures.repository [])
          Fixtures.group_session)
       (mkRunState (CheckRoom.mkContext None (Some Fixtures.room_private)) [])
     = (Returned CONTINUE,
        mkRunState (CheckRoom.mkContext None (Some Fixtures.room_private)) []).
Proof. split; reflexivity. Qed.

(** ** Traces *)

Section Traces.

Context {C : Type}.

Variable P : Event -> Prop.

Lemma appends_ret {A : Type} (a : A) : appends P (@ret (RunState C) A a).
Proof. intros st. exists []. by rewrite app_nil_r. Qed.

Lemma appends_return_status {A : Type} (status : ChainMiddlewareRunStatus) :
  appends P (@return_status (RunState C) A status).
Proof. intros st. exists []. by rewrite app_nil_r. Qed.

Lemma appends_throw {A : Type} (e : JsError) : appends P (@throw (RunState C) A e).
Proof. intros st. exists []. by rewrite app_nil_r. Qed.

Lemma appends_get_context : appends P (@get_context C).
Proof. intros st. exists []. by rewrite app_nil_r. Qed.

Lemma appends_update_context (f : C -> C) : appends P (update_context f).
Proof. intros st. exists []. simpl. by rewrite app_nil_r. Qed.

Lemma appends_emit (e : Event) : P e -> appends P (@emit C e).
Proof. intros He st. exists [e]. simpl. split; [done | by constructor]. Qed.

Lemma appends_bind {A B : Type} (m : M (RunState C) A) (k : A -> M (RunState C) B) :
  appends P m -> (forall a, appends P (k a)) -> appends P (bind m k).
Proof.
  intros Hm Hk st. destruct (Hm st) as (evs & Htr & Hevs).
  unfold bind. destruct (m st) as [[a | status | e] st1]; simpl in *.
  - destruct (Hk a st1) as (evs' & Htr' & Hevs').
    exists (evs ++ evs'). rewrite Htr', Htr, <- app_assoc.
    split; [done | by apply Forall_app].
  - by exists evs.
  - by exists evs.
Qed.

End Traces.

Lemma calls_app (which : Event -> bool) (t evs : list Event) :
  calls which (t ++ evs) = (calls which t + calls which evs)%nat.
Proof. unfold calls. by rewrite List.filter_app, length_app. Qed.

(** ** resolve_room *)

Section ResolveRoomSteps.

Import ResolveRoom.

Variables (config : Config) (env : Collaborators) (session : Session).

Lemma needContinue_trigger (context : ChainMiddlewareContext) :
  needContinue config session context = true
  <-> continuation_trigger config session context.
Proof.
  unfold needContinue, continuation_trigger.
  destruct (command context) as [cmd |]; simpl;
    destruct (isDirect session), (allowPrivate config),
      (privateChatWithoutCommand config), (appel session),
      (allowAtReply config), (startsWith (content session) (botName config)),
      (isNickname config); simpl; intuition congruence.
Qed.

Lemma needContinue_no_trigger (context : ChainMiddlewareContext) :
  ~ continuation_trigger config session context ->
  needContinue config session context = false.
Proof.
  intros H. destruct (needContinue config session context) eqn:E; [| done].
  by apply needContinue_trigger in E.
Qed.

(** Step 1 when chat by room name is enabled. *)
Lemma match_room_name_enabled (hinted : option ConversationRoom) (st : State) :
  allowChatWithRoomName config = true ->
  match_room_name config env session hinted st =
    if negb (not_null (matchedRoom env (context st)).1)
       && negb (needContinue config session (context st))
    then (Return STOP, st)
    else (Normal (matchedRoom env (context st)).1,
          mkRunState
            (with_inputMessage
               (transform env ((matchedRoom env (context st)).2 ++ [" "]))
               (context st))
            (trace st)).
Proof.
  intros Hon. unfold match_room_name. rewrite Hon.
  unfold bind, get_context.
  destruct (matchedRoom env (context st)) as [matched rest]. simpl.
  by destruct (negb (not_null matched) && _).
Qed.

Lemma match_room_name_disabled (hinted : option ConversationRoom) (st : State) :
  allowChatWithRoomName config = false ->
  match_room_name config env session hinted st = (Normal hinted, st).
Proof. intros Hoff. unfold match_room_name. by rewrite Hoff. Qed.

(** Steps 1 to 4 as a case on the outcome of step 1. *)
Lemma select_room_unfold (st : State) :
  select_room config env session st =
    match match_room_name config env session
            (queryJoinedConversationRoom env (room_resolve_name (context st))) st
    with
    | (Normal joinRoom, st1) =>
        bind (pick_joined_room config env session joinRoom)
          (fun joinRoom =>
             bind (adopt_public_room config env session joinRoom)
               (clone_template_room config env session)) st1
    | (Return status, st1) => (Return status, st1)
    | (Throw e, st1) => (Throw e, st1)
    end.
Proof. reflexivity. Qed.

(** The run after step 1. *)
Lemma select_room_after_match (st st1 : State)
  (joinRoom : option ConversationRoom) :
  match_room_name config env session
    (queryJoinedConversationRoom env (room_resolve_name (context st))) st
  = (Normal joinRoom, st1) ->
  select_room config env session st =
    bind (pick_joined_room config env session joinRoom)
      (fun joinRoom =>
         bind (adopt_public_room config env session joinRoom)
           (clone_template_room config env session)) st1.
Proof.
  intros H. unfold select_room. unfold bind at 1. unfold get_context at 1.
  unfold bind at 1. by rewrite H.
Qed.

Lemma select_room_halted (st st1 : State) (status : ChainMiddlewareRunStatus) :
  match_room_name config env session
    (queryJoinedConversationRoom env (room_resolve_name (context st))) st
  = (Return status, st1) ->
  select_room config env session st = (Return status, st1).
Proof.
  intros H. unfold select_room. unfold bind at 1. unfold get_context at 1.
  unfold bind at 1. by rewrite H.
Qed.

(** A room adopted before step 3 passes steps 3 and 4 untouched. *)
Lemma adopt_clone_skip (room : ConversationRoom) (st : State) :
  bind (adopt_public_room config env session (Some room))
    (clone_template_room config env session) st
  = (Normal (Some room), st).
Proof. reflexivity. Qed.


(** Step 2 when it is entered without a room and the user has joined
    rooms. *)
Lemma pick_joined_room_run (st : State) :
  getAllJoinedConversationRoom env <> [] ->
  pick_joined_room config env session None st =
    match pick config env session (getAllJoinedConversationRoom env) with
    | Some room =>
        (Normal (Some room),
         mkRunState (context st)
           (trace st ++
              [SwitchConversationRoom (userId session) (ById (roomId room));
               LogSuccess (switched_log session room)]))
    | None =>
        (Throw (TypeError "Cannot read properties of undefined (reading 'roomId')"),
         st)
    end.
Proof.
  intros Hne. unfold pick_joined_room.
  destruct (getAllJoinedConversationRoom env) as [| r rs] eqn:E; [done |].
  change (0 <? length (r :: rs))%nat with true. cbv iota.
  destruct (pick config env session (r :: rs)); [| done].
  unfold bind, emit, modify, ret. simpl. by rewrite <- app_assoc.
Qed.

(** The run after steps 1 to 4. *)
Lemma resolve_room_after_select (st st1 : State)
  (joinRoom : option ConversationRoom) :
  select_room config env session st = (Normal joinRoom, st1) ->
  run_handler (resolve_room config env session) st =
    match sync_template_clone config joinRoom st1 with
    | (Normal joinRoom', st2) =>
        (Returned CONTINUE,
         mkRunState (with_room joinRoom' (context st2)) (trace st2))
    | (Return status, st2) => (Returned status, st2)
    | (Throw e, st2) => (Threw e, st2)
    end.
Proof.
  intros H. unfold run_handler, resolve_room. unfold bind at 1. rewrite H.
  unfold bind at 1.
  by destruct (sync_template_clone config joinRoom st1) as [[jr | status | e] st2].
Qed.

Lemma resolve_room_select_exit (st st1 : State) :
  (forall status, select_room config env session st = (Return status, st1) ->
     run_handler (resolve_room config env session) st = (Returned status, st1))
  /\ (forall e, select_room config env session st = (Throw e, st1) ->
        run_handler (resolve_room config env session) st = (Threw e, st1)).
Proof.
  split; intros x H; unfold run_handler, resolve_room, bind; by rewrite H.
Qed.

(** Step 5 leaves a room alone that is not an auto-updated template
    clone. *)
Lemma sync_template_clone_skip (room : ConversationRoom) (st : State) :
  is_template_clone room && autoUpdate room = false ->
  sync_template_clone config (Some room) st = (Normal (Some room), st).
Proof. intros H. unfold sync_template_clone. by rewrite H. Qed.

(** Step 5 on an auto-updated template clone. *)
Lemma sync_template_clone_run (room : ConversationRoom) (st : State) :
  visibility room = template_clone -> autoUpdate room = true ->
  sync_template_clone config (Some room) st =
    (Normal (Some (with_defaults config room)),
     mkRunState (context st)
       (trace st ++
          if negb (String.eqb (preset room) (defaultPreset config))
             || negb (String.eqb (chatMode room) (defaultChatMode config))
          then [Upsert (with_defaults config room);
                ClearChatHistory (with_defaults config room);
                LogDebug (updated_log (with_defaults config room))]
          else if negb (String.eqb (model room) (defaultModel config))
               then [ClearCache room]
               else [])).
Proof.
  intros Hvis Hauto. unfold sync_template_clone, is_template_clone, visibility_eqb.
  rewrite Hvis, Hauto. simpl.
  destruct st as [ctx tr].
  destruct (negb (String.eqb (preset room) (defaultPreset config))
            || negb (String.eqb (chatMode room) (defaultChatMode config))).
  - unfold bind, emit, modify, ret. simpl. by rewrite <- !app_assoc.
  - destruct (negb (String.eqb (model room) (defaultModel config))).
    + unfold bind, emit, modify, ret. by simpl.
    + unfold bind, ret. simpl. by rewrite app_nil_r.
Qed.

Ltac appends_step :=
  first
    [ apply appends_ret
    | apply appends_return_status
    | apply appends_throw
    | apply appends_get_context
    | apply appends_update_context
    | apply appends_emit; exact I
    | apply appends_bind; [| intros ?]
    | case_match ].

(** Steps 1 to 4 only switch rooms, create rooms and log. *)
Lemma select_room_appends :
  appends selection_event (select_room config env session).
Proof.
  unfold select_room, match_room_name, pick_joined_room, adopt_public_room,
    clone_template_room, set_inputMessage.
  repeat appends_step.
Qed.

Lemma selection_event_calls (t evs : list Event) :
  Forall selection_event evs ->
  calls is_upsert (t ++ evs) = calls is_upsert t
  /\ calls is_clear_history (t ++ evs) = calls is_clear_history t
  /\ calls is_clear_cache (t ++ evs) = calls is_clear_cache t.
Proof.
  intros Hevs. rewrite !calls_app.
  assert (H : forall which,
             (forall e, selection_event e -> which e = false) ->
             calls which evs = 0%nat).
  { intros which Hwhich. unfold calls.
    induction Hevs as [| e evs He _ IH]; [done |].
    simpl. by rewrite (Hwhich e He). }
  rewrite !H; [lia | by intros [] | by intros [] | by intros []].
Qed.

Lemma select_room_calls (st st1 : State) (joinRoom : Completion (option ConversationRoom)) :
  select_room config env session st = (joinRoom, st1) ->
  calls is_upsert (trace st1) = calls is_upsert (trace st)
  /\ calls is_clear_history (trace st1) = calls is_clear_history (trace st)
  /\ calls is_clear_cache (trace st1) = calls is_clear_cache (trace st).
Proof.
  intros H. destruct (select_room_appends st) as (evs & Htr & Hevs).
  rewrite H in Htr. simpl in Htr. rewrite Htr.
  by apply selection_event_calls.
Qed.


Lemma find_none {A : Type} (p : A -> bool) (l : list A) :
  (forall y, In y l -> p y = false) -> find p l = None.
Proof.
  induction l as [| a l IH]; intros H; [done |].
  simpl. rewrite (H a); [| by left]. apply IH. intros y Hy. apply H. by right.
Qed.

(** Without joined rooms every name lookup comes back empty. *)
Lemma no_joined_no_match (name : option string) :
  joined_consistent env -> getAllJoinedConversationRoom env = [] ->
  queryJoinedConversationRoom env name = None.
Proof.
  intros Hcons Hnil.
  destruct (queryJoinedConversationRoom env name) as [room |] eqn:E; [| done].
  apply Hcons in E. rewrite Hnil in E. destruct E.
Qed.

Lemma no_joined_matchedRoom (context : ChainMiddlewareContext) :
  joined_consistent env -> getAllJoinedConversationRoom env = [] ->
  (matchedRoom env context).1 = None.
Proof.
  intros Hcons Hnil. unfold matchedRoom.
  destruct (1 <? length (split " " (message context)))%nat; [| done].
  destruct (split " " (message context)); simpl; by apply no_joined_no_match.
Qed.

(** Steps 2 to 4 for a user without joined rooms and without a command,
    with [autoCreateRoomFromUser] enabled and a template room. *)
Lemma create_from_template (st : State) (templateRoom : ConversationRoom) :
  getAllJoinedConversationRoom env = [] ->
  command (context st) = None ->
  autoCreateRoomFromUser config = true ->
  getTemplateConversationRoom env = Some templateRoom ->
  bind (pick_joined_room config env session None)
    (fun joinRoom =>
       bind (adopt_public_room config env session joinRoom)
         (clone_template_room config env session)) st
  = (Normal (Some (cloneRoom config env session templateRoom)),
     mkRunState (context st)
       (trace st ++
          [LogSuccess (created_log config session
                         (cloneRoom config env session templateRoom));
           CreateConversationRoom (userId session)
             (cloneRoom config env session templateRoom)])).
Proof.
  intros Hnil Hcmd Hauto Htemplate.
  unfold pick_joined_room, adopt_public_room, clone_template_room,
    bind, get_context, ret, no_command, emit, modify.
  rewrite Hnil, Hauto. simpl. rewrite Hcmd, Htemplate. simpl.
  by rewrite <- app_assoc.
Qed.

End ResolveRoomSteps.

Section ResolveRoomClaims.

Import ResolveRoom.

Variables (config : Config) (env : Collaborators) (session : Session).

(** C3, as amended: with chat by room name enabled, when the first word
    matches no joined room and no continuation trigger holds, the handler
    returns [STOP] at once: nothing is written to the context and no
    collaborator is called. *)
Theorem no_match_no_trigger_stops (st : State) :
  allowChatWithRoomName config = true ->
  (matchedRoom env (context st)).1 = None ->
  ~ continuation_trigger config session (context st) ->
  run_handler (resolve_room config env session) st = (Returned STOP, st).
Proof.
  intros Hon Hmatch Htrigger.
  apply resolve_room_select_exit, select_room_halted.
  rewrite match_room_name_enabled by done. rewrite Hmatch.
  by rewrite needContinue_no_trigger.
Qed.

(** C9: with chat by room name enabled, step 1 does not look at the room
    found through [room_resolve.name].  Whatever that lookup found, step 1
    passes when the first word names a joined room or a continuation
    trigger holds; [joinRoom] is then the first-word match, the rest of the
    message is stored as the input, and the run goes on to step 2 with the
    first-word match.  Otherwise step 1 returns [STOP].  In particular,
    with a message of fewer than two words, or a first word that names no
    joined room, and a continuation trigger, step 1 passes and leaves
    [joinRoom] undefined: the run enters step 2 without a room, although
    the hint may have resolved to one. *)
Theorem name_hint_overwritten (st : State) (hinted : option ConversationRoom) :
  allowChatWithRoomName config = true ->
  let matched := (matchedRoom env (context st)).1 in
  let st1 :=
    mkRunState
      (with_inputMessage
         (transform env ((matchedRoom env (context st)).2 ++ [" "]))
         (context st))
      (trace st) in
  let steps_2_to_4 joinRoom :=
    bind (pick_joined_room config env session joinRoom)
      (fun joinRoom =>
         bind (adopt_public_room config env session joinRoom)
           (clone_template_room config env session)) in
  (matched <> None \/ continuation_trigger config session (context st) ->
   match_room_name config env session hinted st = (Normal matched, st1)
   /\ select_room config env session st = steps_2_to_4 matched st1)
  /\ (matched = None -> ~ continuation_trigger config session (context st) ->
      match_room_name config env session hinted st = (Return STOP, st))
  /\ ((length (split " " (message (context st))) < 2)%nat
      \/ (exists first rest,
            split " " (message (context st)) = first :: rest
            /\ queryJoinedConversationRoom env (Some first) = None) ->
      continuation_trigger config session (context st) ->
      matched = None
      /\ match_room_name config env session hinted st = (Normal None, st1)
      /\ select_room config env session st = steps_2_to_4 None st1).
Proof.
  intros Hon matched st1 steps_2_to_4.
  assert (Hpass : negb (not_null matched)
                  && negb (needContinue config session (context st)) = false ->
                  match_room_name config env session hinted st = (Normal matched, st1)
                  /\ select_room config env session st = steps_2_to_4 matched st1).
  { intros Hguard.
    assert (Hstep1 : forall h, match_room_name config env session h st
                               = (Normal matched, st1)).
    { intros h. rewrite match_room_name_enabled by done.
      fold matched. by rewrite Hguard. }
    split; [apply Hstep1 |]. apply select_room_after_match, Hstep1. }
  split; [| split].
  - intros Hwhy. apply Hpass. destruct Hwhy as [Hsome | Htrigger].
    + destruct matched; [done | by destruct Hsome].
    + apply needContinue_trigger in Htrigger. rewrite Htrigger.
      apply andb_false_r.
  - intros Hnone Htrigger. rewrite match_room_name_enabled by done.
    fold matched. rewrite Hnone. by rewrite needContinue_no_trigger.
  - intros Hno Htrigger.
    assert (Hnone : matched = None).
    { unfold matched, matchedRoom.
      destruct Hno as [Hshort | (first & rest & Hsplit & Hq)].
      - destruct (Nat.ltb_spec 1 (length (split " " (message (context st)))));
          [lia | done].
      - rewrite Hsplit. by destruct (1 <? length (first :: rest))%nat. }
    split; [exact Hnone |]. rewrite <- Hnone. apply Hpass.
    apply needContinue_trigger in Htrigger. rewrite Htrigger.
    apply andb_false_r.
Qed.

(** C8: a run that enters step 2 without a room, with
    [autoCreateRoomFromUser] enabled and a non-empty joined set in which
    the user owns neither a private nor a template-clone room, reaches
    [joinRoom.roomId] with [joinRoom] undefined: the handler throws. *)
Theorem pick_undefined_throws (st st1 : State) :
  match_room_name config env session
    (queryJoinedConversationRoom env (room_resolve_name (context st))) st
  = (Normal None, st1) ->
  autoCreateRoomFromUser config = true ->
  getAllJoinedConversationRoom env <> [] ->
  (forall room,
     In room (getAllJoinedConversationRoom env) ->
     roomMasterId room = userId session -> visibility room = public) ->
  pick config env session (getAllJoinedConversationRoom env) = None
  /\ run_handler (resolve_room config env session) st =
       (Threw (TypeError "Cannot read properties of undefined (reading 'roomId')"),
        st1).
Proof.
  intros Hstep1 Hauto Hne Hown.
  assert (Hpick : pick config env session (getAllJoinedConversationRoom env) = None).
  { unfold pick. rewrite Hauto. simpl.
    rewrite !find_none; [done | |].
    - intros room Hin. unfold owned_template_clone, visibility_eqb.
      destruct (String.eqb_spec (roomMasterId room) (userId session)) as [E |];
        [| by rewrite andb_false_r].
      by rewrite (Hown room Hin E).
    - intros room Hin. unfold owned_private, visibility_eqb.
      destruct (String.eqb_spec (roomMasterId room) (userId session)) as [E |];
        [| by rewrite andb_false_r].
      by rewrite (Hown room Hin E). }
  split; [exact Hpick |].
  apply resolve_room_select_exit.
  rewrite (select_room_after_match _ _ _ _ _ _ Hstep1).
  unfold bind at 1. rewrite pick_joined_room_run by done. by rewrite Hpick.
Qed.


(** C4, as amended: when step 5 takes up an auto-updated template clone
    whose stored model differs from [defaultModel], [clearCache] is called
    with the room as stored, before the fields are overwritten, provided
    its preset and chat mode equal the live defaults; when the preset or
    the chat mode differs, the run upserts the room and clears its
    history, and calls [clearCache] not at all. *)
Theorem clear_cache_without_drift_only (st st1 : State) (room : ConversationRoom) :
  select_room config env session st = (Normal (Some room), st1) ->
  visibility room = template_clone -> autoUpdate room = true ->
  model room <> defaultModel config ->
  let room' := with_defaults config room in
  (preset room = defaultPreset config /\ chatMode room = defaultChatMode config ->
   run_handler (resolve_room config env session) st =
     (Returned CONTINUE,
      mkRunState (with_room (Some room') (context st1))
                 (trace st1 ++ [ClearCache room]))
   /\ model room' = defaultModel config)
  /\ (preset room <> defaultPreset config \/ chatMode room <> defaultChatMode config ->
      exists st',
        run_handler (resolve_room config env session) st = (Returned CONTINUE, st')
        /\ trace st' =
             trace st1 ++ [Upsert room'; ClearChatHistory room';
                           LogDebug (updated_log room')]
        /\ calls is_clear_cache (trace st') = calls is_clear_cache (trace st)).
Proof.
  intros Hselect Hvis Hauto Hmodel room'.
  pose proof (resolve_room_after_select _ _ _ _ _ _ Hselect) as Hrun.
  rewrite sync_template_clone_run in Hrun by done.
  apply String.eqb_neq in Hmodel.
  split.
  - intros [Hpreset Hmode].
    apply String.eqb_eq in Hpreset. apply String.eqb_eq in Hmode.
    rewrite Hpreset, Hmode, Hmodel in Hrun. by rewrite Hrun.
  - intros Hdrift.
    assert (Hd : negb (String.eqb (preset room) (defaultPreset config))
                 || negb (String.eqb (chatMode room) (defaultChatMode config))
                 = true).
    { destruct Hdrift as [H | H]; apply String.eqb_neq in H; rewrite H;
        [done | by rewrite orb_true_r]. }
    rewrite Hd in Hrun. eexists. split; [exact Hrun |]. split; [done |].
    simpl. rewrite calls_app.
    destruct (select_room_calls _ _ _ _ _ _ Hselect) as (_ & _ & ->).
    unfold calls. simpl. lia.
Qed.

(** C6: when step 5 takes up an auto-updated template clone whose stored
    preset or chat mode differs from the live defaults, the run upserts
    the room with the live model, preset and chat mode and clears its
    history, once each.  A later run under the same configuration that
    takes up the room as it was persisted upserts nothing and clears no
    history. *)
Theorem template_resync_once (st st1 : State) (room : ConversationRoom) :
  select_room config env session st = (Normal (Some room), st1) ->
  visibility room = template_clone -> autoUpdate room = true ->
  preset room <> defaultPreset config \/ chatMode room <> defaultChatMode config ->
  let room' := with_defaults config room in
  let st' :=
    mkRunState (with_room (Some room') (context st1))
      (trace st1 ++ [Upsert room'; ClearChatHistory room';
                     LogDebug (updated_log room')]) in
  run_handler (resolve_room config env session) st = (Returned CONTINUE, st')
  /\ (model room' = defaultModel config
      /\ preset room' = defaultPreset config
      /\ chatMode room' = defaultChatMode config)
  /\ calls is_upsert (trace st') = S (calls is_upsert (trace st))
  /\ calls is_clear_history (trace st') = S (calls is_clear_history (trace st))
  /\ forall (env2 : Collaborators) (session2 : Session) (st2 st3 : State),
      select_room config env2 session2 st2 = (Normal (Some room'), st3) ->
      run_handler (resolve_room config env2 session2) st2 =
        (Returned CONTINUE,
         mkRunState (with_room (Some room') (context st3)) (trace st3))
      /\ calls is_upsert (trace st3) = calls is_upsert (trace st2)
      /\ calls is_clear_history (trace st3) = calls is_clear_history (trace st2).
Proof.
  intros Hselect Hvis Hauto Hdrift room' st'.
  pose proof (resolve_room_after_select _ _ _ _ _ _ Hselect) as Hrun.
  rewrite sync_template_clone_run in Hrun by done.
  assert (Hd : negb (String.eqb (preset room) (defaultPreset config))
               || negb (String.eqb (chatMode room) (defaultChatMode config))
               = true).
  { destruct Hdrift as [H | H]; apply String.eqb_neq in H; rewrite H;
      [done | by rewrite orb_true_r]. }
  rewrite Hd in Hrun.
  destruct (select_room_calls _ _ _ _ _ _ Hselect) as (Hup & Hclear & _).
  split; [exact Hrun |]. split; [done |].
  split; [| split].
  - simpl. rewrite calls_app, Hup. unfold calls. simpl. lia.
  - simpl. rewrite calls_app, Hclear. unfold calls. simpl. lia.
  - intros env2 session2 st2 st3 Hselect2.
    destruct (select_room_calls _ _ _ _ _ _ Hselect2) as (Hup2 & Hclear2 & _).
    split; [| done].
    rewrite (resolve_room_after_select _ _ _ _ _ _ Hselect2).
    rewrite sync_template_clone_run by done.
    subst room'. simpl. rewrite !String.eqb_refl. simpl.
    by rewrite app_nil_r.
Qed.

(** C5, as amended: a run that is not halted at step 1 (chat by room name
    is disabled, or a continuation trigger holds), by a user without
    joined rooms ([getAllJoinedConversationRoom] returns no room and
    [queryJoinedConversationRoom] finds none) and without a command, with
    [autoCreateRoomFromUser] enabled and a template room, ends with
    [CONTINUE] holding a room that was created through
    [createConversationRoom]: private, owned by the user, numbered one
    above the highest room id, carrying the conversation id [uuidv4()]
    returned in place of the template's (so different from the template's
    unless [uuidv4()] returns that very id), and named after the user
    (direct chat) or the guild (group chat). *)
Theorem auto_create_room (st : State) (templateRoom : ConversationRoom) :
  getAllJoinedConversationRoom env = [] ->
  (forall name, queryJoinedConversationRoom env name = None) ->
  command (context st) = None ->
  autoCreateRoomFromUser config = true ->
  getTemplateConversationRoom env = Some templateRoom ->
  allowChatWithRoomName config = false
  \/ continuation_trigger config session (context st) ->
  exists room st',
    run_handler (resolve_room config env session) st = (Returned CONTINUE, st')
    /\ options_room (context st') = Some room
    /\ trace st' =
         trace st ++ [LogSuccess (created_log config session room);
                      CreateConversationRoom (userId session) room]
    /\ visibility room = private
    /\ roomMasterId room = userId session
    /\ roomId room = getMaxConversationRoomId env + 1
    /\ conversationId room = uuidv4 env
    /\ (uuidv4 env <> conversationId templateRoom ->
        conversationId room <> conversationId templateRoom)
    /\ roomName room = owner_label session +:+ " 的房间"
    /\ (isDirect session = true ->
        roomName room = nullish (username session) (userId session) +:+ " 的房间")
    /\ (isDirect session = false ->
        forall name, guild_name session = Some name ->
        roomName room = name +:+ " 的房间").
Proof.
  intros Hnil Hquery Hcmd Hauto Htemplate Hstep1.
  assert (Hcons : joined_consistent env).
  { intros name r Hr. by rewrite Hquery in Hr. }
  assert (Hmatch : exists st1,
             match_room_name config env session
               (queryJoinedConversationRoom env (room_resolve_name (context st))) st
             = (Normal None, st1)
             /\ trace st1 = trace st /\ command (context st1) = None).
  { destruct (allowChatWithRoomName config) eqn:Hallow.
    - destruct Hstep1 as [? | Htrigger]; [done |].
      apply needContinue_trigger in Htrigger.
      exists (mkRunState
                (with_inputMessage
                   (transform env ((matchedRoom env (context st)).2 ++ [" "]))
                   (context st))
                (trace st)).
      rewrite match_room_name_enabled by done.
      rewrite no_joined_matchedRoom by done. rewrite Htrigger. by simpl.
    - exists st. rewrite match_room_name_disabled by done.
      by rewrite no_joined_no_match. }
  destruct Hmatch as (st1 & Hm & Htr & Hcmd1).
  set (room := cloneRoom config env session templateRoom).
  assert (Hselect : select_room config env session st =
            (Normal (Some room),
             mkRunState (context st1)
               (trace st1 ++ [LogSuccess (created_log config session room);
                              CreateConversationRoom (userId session) room]))).
  { rewrite (select_room_after_match _ _ _ _ _ _ Hm).
    by apply create_from_template. }
  exists room. eexists. split.
  - rewrite (resolve_room_after_select _ _ _ _ _ _ Hselect).
    rewrite sync_template_clone_skip; [done |].
    unfold room, cloneRoom, is_template_clone, visibility_eqb. simpl.
    by rewrite Hauto.
  - unfold room, cloneRoom, owner_label. simpl.
    rewrite Hauto, Htr. repeat split; try done.
    + intros Hdirect. by rewrite Hdirect.
    + intros Hgroup name Hname. by rewrite Hgroup, Hname.
Qed.

End ResolveRoomClaims.

(** ** The handlers at concrete inputs *)

Example split_words : split " " "a b  c" = ["a"; "b"; ""; "c"].
Proof. reflexivity. Qed.

Example split_no_space : split " " "hello" = ["hello"].
Proof. reflexivity. Qed.

Example split_empty : split " " "" = [""].
Proof. reflexivity. Qed.

(** A mention followed by text reads as "@name" followed by the text. *)
Example read_chat_message_elements :
  ReadChatMessage.read_chat_message Fixtures.mention_session
    (ReadChatMessage.mkContext ReadChatMessage.Nullish None)
  = Normal (ReadChatMessage.Text "@lunahello there").
Proof. vm_compute. reflexivity. Qed.

(** A [String] object is the one message value for which the handler
    declines. *)
Example read_chat_message_string_object :
  ReadChatMessage.read_chat_message Fixtures.group_session
    (ReadChatMessage.mkContext (ReadChatMessage.StringObject "hello") None)
  = Normal (ReadChatMessage.Signal SKIPPED).
Proof. reflexivity. Qed.

Section ResolveRoomRuns.

Import ResolveRoom Fixtures.

(** The first word names a joined room and the bot is mentioned: the room
    is taken and the rest of the message becomes the input. *)
Example resolve_room_first_word :
  run_handler
    (resolve_room config_room_name (repository [room_public]) mention_session)
    (start "plaza hello there")
  = (Returned CONTINUE,
     mkRunState
       (mkContext "plaza hello there" None None (Some "hellothere ")
          (Some room_public))
       []).
Proof. reflexivity. Qed.

(** The specification's example: one owned private room, no room hint;
    the room is selected and nothing is created. *)
Example resolve_room_single_private :
  run_handler
    (resolve_room config (repository [room 1 "A" "u1" private]) group_session)
    (start "hello there")
  = (Returned CONTINUE,
     mkRunState
       (mkContext "hello there" None None None (Some (room 1 "A" "u1" private)))
       [SwitchConversationRoom "u1" (ById 1);
        LogSuccess (switched_log group_session (room 1 "A" "u1" private))]).
Proof. reflexivity. Qed.

Lemma no_match_no_trigger_stops_witness :
  run_handler
    (resolve_room config_room_name (repository [room_public]) group_session)
    (start "hello there")
  = (Returned STOP, start "hello there").
Proof.
  apply no_match_no_trigger_stops; [reflexivity | reflexivity |].
  intros Htrigger. apply needContinue_trigger in Htrigger. discriminate Htrigger.
Defined.

(** C3 as the specification states it fails: the run above ends with
    [STOP], not with [SKIPPED]. *)
Lemma no_match_no_trigger_not_skipped :
  ~ (forall (config : Config) (env : Collaborators) (session : Session)
            (st : State),
       allowChatWithRoomName config = true ->
       (matchedRoom env (context st)).1 = None ->
       ~ continuation_trigger config session (context st) ->
       run_handler (resolve_room config env session) st = (Returned SKIPPED, st)).
Proof.
  intros H.
  specialize (H config_room_name (repository [room_public]) group_session
                (start "hello there") eq_refl eq_refl).
  assert (Hrun : run_handler
                   (resolve_room config_room_name (repository [room_public])
                      group_session) (start "hello there")
                 = (Returned STOP, start "hello there")) by reflexivity.
  rewrite Hrun in H.
  assert (Hneq : (Returned STOP, start "hello there")
                 <> (Returned SKIPPED, start "hello there")) by (intros [=]).
  apply Hneq, H.
  intros Htrigger. apply needContinue_trigger in Htrigger. discriminate Htrigger.
Qed.

(** The hint resolves to "plaza", the message has one word, the bot is
    mentioned: step 1 passes without a room, and the run ends in the owned
    private room "den", not in the hinted one. *)
Lemma name_hint_overwritten_witness :
  queryJoinedConversationRoom (repository [room_public; room_private])
    (Some "plaza") = Some room_public
  /\ match_room_name config_room_name (repository [room_public; room_private])
       mention_session (Some room_public)
       (mkRunState (mkContext "hello" None (Some "plaza") None None) [])
     = (Normal None,
        mkRunState (mkContext "hello" None (Some "plaza") (Some "hello ") None) [])
  /\ run_handler
       (resolve_room config_room_name (repository [room_public; room_private])
          mention_session)
       (mkRunState (mkContext "hello" None (Some "plaza") None None) [])
     = (Returned CONTINUE,
        mkRunState
          (mkContext "hello" None (Some "plaza") (Some "hello ") (Some room_private))
          [SwitchConversationRoom "u1" (ById 3);
           LogSuccess (switched_log mention_session room_private)]).
Proof.
  destruct (name_hint_overwritten config_room_name
              (repository [room_public; room_private]) mention_session
              (mkRunState (mkContext "hello" None (Some "plaza") None None) [])
              (Some room_public) eq_refl)
    as (_ & _ & Hdrop).
  destruct Hdrop as (_ & Hstep1 & Hselect).
  { left. simpl. lia. }
  { apply needContinue_trigger. reflexivity. }
  split; [reflexivity |]. split; [exact Hstep1 |].
  unfold run_handler, resolve_room. unfold bind at 1. rewrite Hselect.
  reflexivity.
Defined.

Lemma pick_undefined_throws_witness :
  run_handler
    (resolve_room config_auto_create (repository [room_public; room_other])
       group_session)
    (start "hello there")
  = (Threw (TypeError "Cannot read properties of undefined (reading 'roomId')"),
     start "hello there").
Proof.
  apply (pick_undefined_throws config_auto_create
           (repository [room_public; room_other]) group_session
           (start "hello there") (start "hello there")).
  - reflexivity.
  - reflexivity.
  - discriminate.
  - intros r [<- | [<- | []]]; [reflexivity | discriminate].
Defined.



(** C4 as the specification states it fails: the stale room differs in
    preset and in model, and the run makes no call to [clearCache]. *)
Lemma drift_skips_clear_cache :
  ~ (forall (config : Config) (env : Collaborators) (session : Session)
            (st st1 : State) (room : ConversationRoom),
       select_room config env session st = (Normal (Some room), st1) ->
       visibility room = template_clone -> autoUpdate room = true ->
       model room <> defaultModel config ->
       exists st',
         run_handler (resolve_room config env session) st = (Returned CONTINUE, st')
         /\ In (ClearCache room) (trace st')).
Proof.
  intros H.
  destruct (H config (repository [room_stale]) group_session
              (start "hello there")
              (mkRunState (context (start "hello there"))
                 [SwitchConversationRoom "u1" (ById 5);
                  LogSuccess (switched_log group_session room_stale)])
              room_stale eq_refl eq_refl eq_refl)
    as (st' & Hrun & Hin); [discriminate |].
  assert (Htrace : trace st' =
            [SwitchConversationRoom "u1" (ById 5);
             LogSuccess (switched_log group_session room_stale);
             Upsert (with_defaults config room_stale);
             ClearChatHistory (with_defaults config room_stale);
             LogDebug (updated_log (with_defaults config room_stale))]).
  { assert (Hst : (run_handler (resolve_room config (repository [room_stale])
                                  group_session) (start "hello there")).2 = st')
      by (by rewrite Hrun).
    by rewrite <- Hst. }
  rewrite Htrace in Hin. simpl in Hin.
  destruct Hin as [E | [E | [E | [E | [E | []]]]]]; discriminate E.
Qed.

Lemma clear_cache_without_drift_only_witness :
  run_handler
    (resolve_room config (repository [room_old_model]) group_session)
    (start "hello there")
  = (Returned CONTINUE,
     mkRunState
       (mkContext "hello there" None None None
          (Some (with_defaults config room_old_model)))
       [SwitchConversationRoom "u1" (ById 6);
        LogSuccess (switched_log group_session room_old_model);
        ClearCache room_old_model]).
Proof.
  destruct (clear_cache_without_drift_only config (repository [room_old_model])
              group_session (start "hello there")
              (mkRunState (context (start "hello there"))
                 [SwitchConversationRoom "u1" (ById 6);
                  LogSuccess (switched_log group_session room_old_model)])
              room_old_model)
    as [Hclear _]; [reflexivity | reflexivity | reflexivity | discriminate |].
  destruct Hclear as [Hrun _]; [by split |]. exact Hrun.
Defined.

Lemma template_resync_once_witness :
  run_handler
    (resolve_room config (repository [room_stale]) group_session)
    (start "hello there")
  = (Returned CONTINUE,
     mkRunState
       (mkContext "hello there" None None None
          (Some (with_defaults config room_stale)))
       [SwitchConversationRoom "u1" (ById 5);
        LogSuccess (switched_log group_session room_stale);
        Upsert (with_defaults config room_stale);
        ClearChatHistory (with_defaults config room_stale);
        LogDebug (updated_log (with_defaults config room_stale))])
  /\ run_handler
       (resolve_room config (repository [with_defaults config room_stale])
          group_session)
       (start "hello again")
     = (Returned CONTINUE,
        mkRunState
          (mkContext "hello again" None None None
             (Some (with_defaults config room_stale)))
          [SwitchConversationRoom "u1" (ById 5);
           LogSuccess (switched_log group_session room_stale)]).
Proof.
  destruct (template_resync_once config (repository [room_stale])
              group_session (start "hello there")
              (mkRunState (context (start "hello there"))
                 [SwitchConversationRoom "u1" (ById 5);
                  LogSuccess (switched_log group_session room_stale)])
              room_stale)
    as (Hfirst & _ & _ & _ & Hsecond);
    [reflexivity | reflexivity | reflexivity | left; discriminate |].
  split; [exact Hfirst |].
  destruct (Hsecond (repository [with_defaults config room_stale])
              group_session (start "hello again")
              (mkRunState (context (start "hello again"))
                 [SwitchConversationRoom "u1" (ById 5);
                  LogSuccess (switched_log group_session room_stale)]))
    as [Hrun _]; [reflexivity |].
  exact Hrun.
Defined.

(** C5 as the specification states it fails, in two ways.  With chat by
    room name enabled and no continuation trigger, the run of a user
    without joined rooms ends with [STOP] at step 1 and creates nothing.
    And a run that does create a room gives it the identifier [uuidv4()]
    returns, without comparing it with the template's: when [uuidv4()]
    returns the template's conversation id, so does the created room
    carry it. *)
Lemma auto_create_halted_or_same_id :
  ~ (forall (config : Config) (env : Collaborators) (session : Session)
            (st : State) (templateRoom : ConversationRoom),
       getAllJoinedConversationRoom env = [] ->
       (forall name, queryJoinedConversationRoom env name = None) ->
       command (context st) = None ->
       autoCreateRoomFromUser config = true ->
       getTemplateConversationRoom env = Some templateRoom ->
       exists room st',
         run_handler (resolve_room config env session) st = (Returned CONTINUE, st')
         /\ holds_created_room config env session templateRoom st st' room)
  /\ ~ (forall (config : Config) (env : Collaborators) (session : Session)
              (st : State) (templateRoom : ConversationRoom),
         allowChatWithRoomName config = false ->
         getAllJoinedConversationRoom env = [] ->
         (forall name, queryJoinedConversationRoom env name = None) ->
         command (context st) = None ->
         autoCreateRoomFromUser config = true ->
         getTemplateConversationRoom env = Some templateRoom ->
         exists room st',
           run_handler (resolve_room config env session) st = (Returned CONTINUE, st')
           /\ holds_created_room config env session templateRoom st st' room).
Proof.
  split; intros H.
  - destruct (H config_room_name_auto_create (repository []) group_session
                (start "hello there") room_template eq_refl)
      as (room & st' & Hrun & _);
      [by intros [name |] | reflexivity | reflexivity | reflexivity |].
    assert (Hstop : run_handler
                      (resolve_room config_room_name_auto_create (repository [])
                         group_session) (start "hello there")
                    = (Returned STOP, start "hello there")) by reflexivity.
    rewrite Hstop in Hrun. discriminate Hrun.
  - destruct (H config_auto_create repository_same_id group_session
                (start "hello there") room_template_uuid eq_refl eq_refl)
      as (room & st' & Hrun & Hroom);
      [by intros [name |] | reflexivity | reflexivity | reflexivity |].
    assert (Hcreated : run_handler
                         (resolve_room config_auto_create repository_same_id
                            group_session) (start "hello there")
                       = (Returned CONTINUE,
                          mkRunState
                            (with_room
                               (Some (cloneRoom config_auto_create repository_same_id
                                        group_session room_template_uuid))
                               (context (start "hello there")))
                            [LogSuccess
                               (created_log config_auto_create group_session
                                  (cloneRoom config_auto_create repository_same_id
                                     group_session room_template_uuid));
                             CreateConversationRoom "u1"
                               (cloneRoom config_auto_create repository_same_id
                                  group_session room_template_uuid)]))
      by reflexivity.
    rewrite Hcreated in Hrun. injection Hrun as <-.
    destruct Hroom as (Hopt & _ & _ & _ & _ & _ & Hdiffers & _).
    simpl in Hopt. injection Hopt as <-. by apply Hdiffers.
Qed.

Lemma auto_create_room_witness :
  exists room st',
    run_handler
      (resolve_room config_room_name_auto_create (repository []) mention_session)
      (start "hello there")
    = (Returned CONTINUE, st')
    /\ options_room (context st') = Some room
    /\ roomId room = 7
    /\ visibility room = private
    /\ conversationId room = "6f1c2a9e-58b1-4c0d-9d0e-0a4a3b1f7c11"
    /\ roomName room = "lounge 的房间".
Proof.
  destruct (auto_create_room config_room_name_auto_create (repository [])
              mention_session (start "hello there") room_template)
    as (room & st' & Hrun & Hopt & _ & Hvis & _ & Hid & Hconv & _ & _ & _ & Hname);
    [reflexivity | by intros [name |] | reflexivity | reflexivity
    | reflexivity | |].
  { right. apply needContinue_trigger. reflexivity. }
  exists room, st'. split; [exact Hrun |].
  split; [exact Hopt |]. split; [by rewrite Hid |]. split; [exact Hvis |].
  split; [exact Hconv |].
  by rewrite (Hname eq_refl "lounge" eq_refl).
Defined.

End ResolveRoomRuns.

(** * Further properties *)

(** ** read_chat_message on elements *)

Section ReadChatMessageElements.

Import ReadChatMessage.

Lemma append_assoc (a b c : string) : (a +:+ b) +:+ c = a +:+ (b +:+ c).
Proof.
  induction a as [| x a IH]; [done |].
  change (String x ((a +:+ b) +:+ c) = String x (a +:+ (b +:+ c))). by f_equal.
Qed.

Lemma append_empty_r (a : string) : a +:+ EmptyString = a.
Proof.
  induction a as [| x a IH]; [done |].
  change (String x (a +:+ EmptyString) = String x a). by f_equal.
Qed.

Lemma join_empty_app (xs ys : list (option string)) :
  join_empty (xs ++ ys) = join_empty xs +:+ join_empty ys.
Proof.
  induction xs as [| x xs IH]; [done |].
  change (join_empty ((x :: xs) ++ ys))
    with (nullish x EmptyString +:+ join_empty (xs ++ ys)).
  change (join_empty (x :: xs)) with (nullish x EmptyString +:+ join_empty xs).
  by rewrite IH, append_assoc.
Qed.

(** The loop only ever pushes: the accumulator is a prefix of the result. *)
Lemma visit_acc (items : list Item) (result : list (option string)) :
  foldl visit result items = result ++ foldl visit [] items.
Proof.
  revert result. induction items as [| it items IH]; intros result.
  { simpl. by rewrite app_nil_r. }
  simpl. rewrite IH. rewrite (IH (visit [] it)). rewrite app_assoc. f_equal.
  unfold visit. destruct it as [e | c]; [| by rewrite app_nil_r].
  repeat case_match; by rewrite ?app_nil_r.
Qed.

Lemma visit_element_text (e : Element) :
  join_empty (visit [] (ItemElement e)) = element_text e.
Proof.
  unfold visit, element_text, truthy.
  destruct (String.eqb (type e) "text").
  { simpl. apply append_empty_r. }
  destruct (String.eqb (type e) "at"); [| done].
  destruct (attrs e !! "name") as [name |]; [| done].
  destruct (String.eqb name EmptyString); [done |].
  simpl. by rewrite append_empty_r.
Qed.

Lemma read_elements (es : list Element) :
  join_empty (foldl visit [] (ItemElement <$> es))
  = foldr (fun e acc => element_text e +:+ acc) EmptyString es.
Proof.
  induction es as [| e es IH]; [done |].
  change (foldl visit [] (ItemElement <$> e :: es))
    with (foldl visit (visit [] (ItemElement e)) (ItemElement <$> es)).
  rewrite visit_acc, join_empty_app, IH. by rewrite visit_element_text.
Qed.

Lemma read_chat_message_of_elements (session : Session) (es : list Element) :
  read_chat_message session (mkContext (Elements es) None)
  = Normal (Text (foldr (fun e acc => element_text e +:+ acc) EmptyString es)).
Proof. unfold read_chat_message. simpl. by rewrite read_elements. Qed.

(** X1: with [context.options.message] unset, on an array of elements the
    handler returns a string, and the string for two arrays put end to end
    is the concatenation of the strings for each: an element contributes
    the same text wherever it stands. *)
Theorem read_chat_message_app (session : Session) (es1 es2 : list Element) :
  exists t1 t2,
    read_chat_message session (mkContext (Elements es1) None) = Normal (Text t1)
    /\ read_chat_message session (mkContext (Elements es2) None) = Normal (Text t2)
    /\ read_chat_message session (mkContext (Elements (es1 ++ es2)) None)
       = Normal (Text (t1 +:+ t2)).
Proof.
  eexists _, _. rewrite !read_chat_message_of_elements.
  split; [done |]. split; [done |]. do 2 f_equal.
  induction es1 as [| e es1 IH]; [done |].
  change (foldr (fun e acc => element_text e +:+ acc) EmptyString ((e :: es1) ++ es2))
    with (element_text e
          +:+ foldr (fun e acc => element_text e +:+ acc) EmptyString (es1 ++ es2)).
  rewrite IH. symmetry. apply append_assoc.
Qed.

(** X2: an element that is neither a text nor a mention with a non-empty
    name leaves no mark in the result, wherever it stands in the message. *)
Theorem read_chat_message_ignores (session : Session) (es1 es2 : list Element)
  (e : Element) :
  type e <> "text" ->
  (type e = "at" -> attrs e !! "name" = None \/ attrs e !! "name" = Some EmptyString) ->
  read_chat_message session (mkContext (Elements (es1 ++ e :: es2)) None)
  = read_chat_message session (mkContext (Elements (es1 ++ es2)) None).
Proof.
  intros Htext Hat. rewrite !read_chat_message_of_elements. do 2 f_equal.
  assert (He : element_text e = EmptyString).
  { unfold element_text. apply String.eqb_neq in Htext. rewrite Htext.
    destruct (String.eqb_spec (type e) "at") as [E |]; [| done].
    by destruct (Hat E) as [-> | ->]. }
  induction es1 as [| x es1 IH].
  - change (foldr (fun e acc => element_text e +:+ acc) EmptyString ([] ++ e :: es2))
      with (element_text e
            +:+ foldr (fun e acc => element_text e +:+ acc) EmptyString es2).
    by rewrite He.
  - change (foldr (fun e acc => element_text e +:+ acc) EmptyString
              ((x :: es1) ++ e :: es2))
      with (element_text x
            +:+ foldr (fun e acc => element_text e +:+ acc) EmptyString
                  (es1 ++ e :: es2)).
    by rewrite IH.
Qed.

End ReadChatMessageElements.

Lemma read_chat_message_ignores_witness :
  ReadChatMessage.read_chat_message Fixtures.group_session
    (ReadChatMessage.mkContext
       (ReadChatMessage.Elements
          ([mkElement "text" {[ "content" := "a" ]}]
             ++ mkElement "image" ∅ :: [mkElement "text" {[ "content" := "b" ]}]))
       None)
  = ReadChatMessage.read_chat_message Fixtures.group_session
      (ReadChatMessage.mkContext
         (ReadChatMessage.Elements
            ([mkElement "text" {[ "content" := "a" ]}]
               ++ [mkElement "text" {[ "content" := "b" ]}]))
         None).
Proof.
  apply read_chat_message_ignores; [discriminate | discriminate].
Defined.

(** ** check_room as a gate *)

Section CheckRoomGate.

Import CheckRoom.

Variables (config : Config) (env : Collaborators) (session : Session).

Lemma same_room_spec (room r : ConversationRoom) :
  same_room room r = true
  <-> roomName r = roomName room \/ roomId r = roomId room.
Proof.
  unfold same_room. rewrite orb_true_iff, String.eqb_eq, Z.eqb_eq. done.
Qed.

(** X4: with [context.options.room] set, the handler lets the run continue
    exactly when every joined room has the name or the id of that room.  It
    calls no collaborator and leaves the room in place either way.  A room
    the user has joined is therefore turned away as soon as the user has
    also joined a room with another name and another id. *)
Theorem check_room_accepts_iff (st : State) (room : ConversationRoom) :
  options_room (context st) = Some room ->
  let result := run_handler (check_room config env session) st in
  (result.1 = Returned CONTINUE
   <-> forall r, In r (getAllJoinedConversationRoom env) ->
                 roomName r = roomName room \/ roomId r = roomId room)
  /\ (result.1 = Returned CONTINUE \/ result.1 = Returned STOP)
  /\ trace result.2 = trace st
  /\ options_room (context result.2) = Some room
  /\ (forall other,
        In other (getAllJoinedConversationRoom env) ->
        roomName other <> roomName room -> roomId other <> roomId room ->
        result = (Returned STOP,
                  mkRunState (mkContext (Some (not_joined_notice room)) (Some room))
                             (trace st))).
Proof.
  intros Hroom result. subst result. rewrite (check_room_set _ _ _ _ _ Hroom).
  destruct (forallb (same_room room) (getAllJoinedConversationRoom env)) eqn:E.
  - rewrite forallb_forall in E. simpl.
    split; [| split; [by left | split; [done | split; [done |]]]].
    + split; [| done]. intros _ r Hr. by apply same_room_spec, E.
    + intros other Hin Hname Hid. apply E, same_room_spec in Hin. tauto.
  - simpl. split; [| split; [by right | split; [done | split; [done | done]]]].
    split; [done |]. intros Hall.
    assert (forallb (same_room room) (getAllJoinedConversationRoom env) = true);
      [| congruence].
    apply forallb_forall. intros r Hr. by apply same_room_spec, Hall.
Qed.

(** X5: for a draw in [[0, 1)] the handler never throws and never returns
    [SKIPPED].  After [CONTINUE] the context holds a room; after [STOP] it
    holds a message for the user, no collaborator has been called and the
    room of the context is as it was. *)
Theorem check_room_outcome (st : State) :
  (0 <= Math_random env)%Q -> (Math_random env < 1)%Q ->
  exists status st',
    run_handler (check_room config env session) st = (Returned status, st')
    /\ (status = CONTINUE /\ is_Some (options_room (context st'))
        \/ status = STOP
           /\ is_Some (message (context st'))
           /\ trace st' = trace st
           /\ options_room (context st') = options_room (context st)).
Proof.
  intros Hlo Hhi.
  destruct (options_room (context st)) as [room |] eqn:Hroom.
  - rewrite (check_room_set _ _ _ _ _ Hroom).
    destruct (forallb _ _); eexists _, _; (split; [done |]); simpl.
    + left. by split.
    + right. by repeat split.
  - destruct st as [[msg r] tr]. simpl in Hroom. subst r.
    unfold run_handler, check_room, bind, get_context. simpl.
    destruct (getAllJoinedConversationRoom env) as [| r0 rs] eqn:Hjoined.
    + simpl. eexists _, _. split; [done |]. right. simpl. by split.
    + destruct (js_index_random (r0 :: rs) (Math_random env)) as (k & room & _ & _ & Hidx);
        [done | done | done |].
      rewrite Hidx. simpl. eexists _, _. split; [done |]. left. by split.
Qed.

End CheckRoomGate.

Lemma check_room_accepts_iff_witness :
  (run_handler
     (CheckRoom.check_room Fixtures.config
        (Fixtures.repository [Fixtures.room_private; Fixtures.room_public])
        Fixtures.group_session)
     (mkRunState (CheckRoom.mkContext None (Some Fixtures.room_private)) [])).1
  <> Returned CONTINUE.
Proof.
  destruct (check_room_accepts_iff Fixtures.config
              (Fixtures.repository [Fixtures.room_private; Fixtures.room_public])
              Fixtures.group_session
              (mkRunState (CheckRoom.mkContext None (Some Fixtures.room_private)) [])
              Fixtures.room_private eq_refl)
    as (_ & _ & _ & _ & Hstop).
  rewrite (Hstop Fixtures.room_public); [discriminate | | discriminate | discriminate].
  simpl. auto.
Defined.

Lemma check_room_outcome_witness :
  exists status st',
    run_handler
      (CheckRoom.check_room Fixtures.config
         (Fixtures.repository [Fixtures.room_public]) Fixtures.group_session)
      (mkRunState (CheckRoom.mkContext None None) [])
    = (Returned status, st').
Proof.
  destruct (check_room_outcome Fixtures.config
              (Fixtures.repository [Fixtures.room_public]) Fixtures.group_session
              (mkRunState (CheckRoom.mkContext None None) []))
    as (status & st' & Hrun & _); [done | done |].
  by exists status, st'.
Defined.

(** ** resolve_room: what a run can do *)

Section ResolveRoomShape.

Import ResolveRoom.

Variables (config : Config) (env : Collaborators) (session : Session).

Ltac run_steps :=
  unfold select_room, match_room_name, pick_joined_room, adopt_public_room,
    clone_template_room, set_inputMessage, bind, get_context, ret,
    return_status, throw, emit, update_context, modify;
  simpl;
  repeat case_match; simplify_eq/=.

(** Steps 1 to 4: the events added, the statuses of an early return, the
    one way to throw, and the fields of the context left alone. *)
Lemma select_room_shape (st : State) :
  let result := select_room config env session st in
  (exists evs, trace result.2 = trace st ++ evs /\ selection_trace evs)
  /\ (forall status, result.1 = Return status -> status = STOP \/ status = SKIPPED)
  /\ (forall e, result.1 = Throw e ->
        getAllJoinedConversationRoom env <> []
        /\ pick config env session (getAllJoinedConversationRoom env) = None)
  /\ message (context result.2) = message (context st)
  /\ command (context result.2) = command (context st)
  /\ options_room (context result.2) = options_room (context st).
Proof.
  simpl. split; [| split; [| split]].
  - run_steps;
      first
        [ by (exists []; rewrite app_nil_r; split; [done | left])
        | by (eexists; split; [rewrite <- app_assoc; reflexivity |];
              right; left; eauto)
        | by (eexists; split; [reflexivity |]; right; right; left; eauto)
        | by (eexists; split; [rewrite <- app_assoc; reflexivity |];
              right; right; right; eauto) ].
  - intros status. run_steps; intros; simplify_eq; auto.
  - intros e. run_steps; intros; simplify_eq.
    all: split; [| done].
    all: intros Hnil; rewrite Hnil in *; done.
  - run_steps; done.
Qed.

Lemma match_room_name_frame (hinted joinRoom : option ConversationRoom)
  (st st1 : State) :
  match_room_name config env session hinted st = (Normal joinRoom, st1) ->
  trace st1 = trace st
  /\ command (context st1) = command (context st)
  /\ message (context st1) = message (context st)
  /\ options_room (context st1) = options_room (context st).
Proof.
  destruct (allowChatWithRoomName config) eqn:Hallow.
  - rewrite match_room_name_enabled by done.
    destruct (negb _ && negb _); [done |]. by intros [= <- <-].
  - rewrite match_room_name_disabled by done. by intros [= <- <-].
Qed.

(** Steps 2 to 4 for a user without joined rooms start at step 3. *)
Lemma no_joined_skip_pick (st : State) :
  getAllJoinedConversationRoom env = [] ->
  bind (pick_joined_room config env session None)
    (fun joinRoom =>
       bind (adopt_public_room config env session joinRoom)
         (clone_template_room config env session)) st
  = bind (adopt_public_room config env session None)
      (clone_template_room config env session) st.
Proof.
  intros Hnil. unfold bind at 1. unfold pick_joined_room. by rewrite Hnil.
Qed.

(** X6: every run extends the trace by what steps 1 to 4 add, followed by
    what step 5 adds.  So a run switches rooms or creates a room but never
    both, and each at most once; it calls [clearCache] once, or upserts one
    room and clears the history of that same room, or does neither; it
    never sends a message to the user, and it leaves [context.message] and
    [context.command] as they were. *)
Theorem resolve_room_trace_shape (st : State) :
  let result := run_handler (resolve_room config env session) st in
  (exists evs1 evs2,
     trace result.2 = trace st ++ evs1 ++ evs2
     /\ selection_trace evs1 /\ sync_trace evs2
     /\ (calls is_switch (evs1 ++ evs2) + calls is_create (evs1 ++ evs2) <= 1)%nat
     /\ calls is_upsert (evs1 ++ evs2) = calls is_clear_history (evs1 ++ evs2)
     /\ (calls is_upsert (evs1 ++ evs2) + calls is_clear_cache (evs1 ++ evs2) <= 1)%nat
     /\ calls is_send (evs1 ++ evs2) = 0%nat)
  /\ message (context result.2) = message (context st)
  /\ command (context result.2) = command (context st).
Proof.
  intros result.
  destruct (select_room_shape st) as ((evs1 & Htr & Hsel) & _ & _ & Hmsg & Hcmd & _).
  assert (Hcount : forall evs2, sync_trace evs2 ->
            (calls is_switch (evs1 ++ evs2) + calls is_create (evs1 ++ evs2) <= 1)%nat
            /\ calls is_upsert (evs1 ++ evs2) = calls is_clear_history (evs1 ++ evs2)
            /\ (calls is_upsert (evs1 ++ evs2) + calls is_clear_cache (evs1 ++ evs2) <= 1)%nat
            /\ calls is_send (evs1 ++ evs2) = 0%nat).
  { intros evs2 Hsync. unfold calls.
    destruct Hsel as [-> | [(u & k & t & ->) | [(t & ->) | (t & u & r & ->)]]];
      destruct Hsync as [-> | [(r2 & ->) | (r2 & t2 & ->)]]; simpl; lia. }
  subst result.
  destruct (select_room config env session st) as [[joinRoom | status | e] st1] eqn:Hsel1;
    simpl in Htr, Hmsg, Hcmd.
  - rewrite (resolve_room_after_select _ _ _ _ _ _ Hsel1).
    destruct joinRoom as [room |].
    + destruct (is_template_clone room && autoUpdate room) eqn:Hsync.
      * apply andb_prop in Hsync as [Hvis Hauto].
        unfold is_template_clone, visibility_eqb in Hvis.
        apply bool_decide_eq_true in Hvis.
        rewrite sync_template_clone_run by done. simpl.
        split; [| done].
        eexists evs1, _. rewrite Htr, <- app_assoc. split; [reflexivity |].
        split; [done |].
        assert (Hs : sync_trace
                  (if negb (String.eqb (preset room) (defaultPreset config))
                      || negb (String.eqb (chatMode room) (defaultChatMode config))
                   then [Upsert (with_defaults config room);
                         ClearChatHistory (with_defaults config room);
                         LogDebug (updated_log (with_defaults config room))]
                   else if negb (String.eqb (model room) (defaultModel config))
                        then [ClearCache room] else [])).
        { destruct (_ || _); [right; right; eauto |].
          destruct (negb _); [right; left; eauto | by left]. }
        split; [exact Hs | by apply Hcount].
      * rewrite sync_template_clone_skip by done. simpl. split; [| done].
        exists evs1, []. rewrite app_nil_r.
        split; [done |]. split; [done |]. split; [by left |].
        rewrite <- (app_nil_r evs1) at 1 2 3 4 5 6 7. apply Hcount. by left.
    + simpl. split; [| done]. exists evs1, []. rewrite app_nil_r.
      split; [done |]. split; [done |]. split; [by left |].
      rewrite <- (app_nil_r evs1) at 1 2 3 4 5 6 7. apply Hcount. by left.
  - destruct (resolve_room_select_exit config env session st st1) as [Hret _].
    rewrite (Hret _ Hsel1). simpl. split; [| done].
    exists evs1, []. rewrite app_nil_r.
    split; [done |]. split; [done |]. split; [by left |].
    rewrite <- (app_nil_r evs1) at 1 2 3 4 5 6 7. apply Hcount. by left.
  - destruct (resolve_room_select_exit config env session st st1) as [_ Hthrow].
    rewrite (Hthrow _ Hsel1). simpl. split; [| done].
    exists evs1, []. rewrite app_nil_r.
    split; [done |]. split; [done |]. split; [by left |].
    rewrite <- (app_nil_r evs1) at 1 2 3 4 5 6 7. apply Hcount. by left.
Qed.

(** X7: whenever a run ends with [CONTINUE] and leaves an auto-updated
    template clone in [context.options.room], that room carries the live
    preset, model and chat mode of the configuration, whichever way it was
    found or created. *)
Theorem resolve_room_clone_synced (st st' : State) (room : ConversationRoom) :
  run_handler (resolve_room config env session) st = (Returned CONTINUE, st') ->
  options_room (context st') = Some room ->
  visibility room = template_clone -> autoUpdate room = true ->
  preset room = defaultPreset config
  /\ model room = defaultModel config
  /\ chatMode room = defaultChatMode config.
Proof.
  intros Hrun Hroom Hvis Hauto.
  destruct (select_room_shape st) as (_ & Hstatus & _).
  destruct (select_room config env session st) as [[joinRoom | status | e] st1] eqn:Hsel.
  - rewrite (resolve_room_after_select _ _ _ _ _ _ Hsel) in Hrun.
    destruct joinRoom as [r |]; [| by simplify_eq/=].
    destruct (is_template_clone r && autoUpdate r) eqn:Hsync.
    + apply andb_prop in Hsync as [Hv Ha].
      unfold is_template_clone, visibility_eqb in Hv.
      apply bool_decide_eq_true in Hv.
      rewrite sync_template_clone_run in Hrun by done. by simplify_eq/=.
    + rewrite sync_template_clone_skip in Hrun by done. simplify_eq/=.
      unfold is_template_clone, visibility_eqb in Hsync.
      rewrite Hvis, Hauto in Hsync. done.
  - destruct (resolve_room_select_exit config env session st st1) as [Hret _].
    rewrite (Hret _ Hsel) in Hrun. simplify_eq.
    by destruct (Hstatus CONTINUE eq_refl).
  - destruct (resolve_room_select_exit config env session st st1) as [_ Hthrow].
    by rewrite (Hthrow _ Hsel) in Hrun.
Qed.

(** X9: a room found by name is taken as it is, without a switch, a
    creation or a log line.  With chat by room name disabled it is the room
    found through [room_resolve.name]; with chat by room name enabled it is
    the joined room named by the first word of a message of two words or
    more, whether or not a continuation trigger holds, and the words after
    the first, followed by one blank element, go to the message
    transformer. *)
Theorem named_room_adopted (st : State) (room : ConversationRoom) :
  (allowChatWithRoomName config = false ->
   queryJoinedConversationRoom env (room_resolve_name (context st)) = Some room ->
   select_room config env session st = (Normal (Some room), st))
  /\ (allowChatWithRoomName config = true ->
      forall first rest,
        split " " (message (context st)) = first :: rest -> rest <> [] ->
        queryJoinedConversationRoom env (Some first) = Some room ->
        select_room config env session st =
          (Normal (Some room),
           mkRunState
             (with_inputMessage (transform env (rest ++ [" "])) (context st))
             (trace st))).
Proof.
  split.
  - intros Hoff Hhint. rewrite select_room_unfold.
    rewrite match_room_name_disabled by done. rewrite Hhint.
    unfold bind at 1. simpl. apply adopt_clone_skip.
  - intros Hon first rest Hsplit Hrest Hquery. rewrite select_room_unfold.
    rewrite match_room_name_enabled by done.
    assert (Hm : matchedRoom env (context st) = (Some room, rest)).
    { unfold matchedRoom. rewrite Hsplit.
      destruct rest as [| w ws]; [done |]. simpl. by rewrite Hquery. }
    rewrite Hm. simpl. unfold bind at 1. simpl. apply adopt_clone_skip.
Qed.

(** Step 3, applied to a state. *)
Lemma adopt_public_room_run (joinRoom : option ConversationRoom) (st : State) :
  adopt_public_room config env session joinRoom st =
    if negb (not_null joinRoom) && negb (autoCreateRoomFromUser config)
       && negb (isDirect session) && no_command (context st)
    then match queryPublicConversationRoom env with
         | Some room =>
             (Normal (Some room),
              mkRunState (context st)
                (trace st ++ [LogSuccess (adopted_public_log session room)]))
         | None => (Normal None, st)
         end
    else (Normal joinRoom, st).
Proof.
  unfold adopt_public_room, bind, get_context. simpl.
  destruct (_ && _ && _ && _); [| done].
  by destruct (queryPublicConversationRoom env).
Qed.

(** Step 4, applied to a state. *)
Lemma clone_template_room_run (joinRoom : option ConversationRoom) (st : State) :
  clone_template_room config env session joinRoom st =
    if negb (not_null joinRoom) && no_command (context st)
    then match getTemplateConversationRoom env with
         | None => (Return SKIPPED, st)
         | Some templateRoom =>
             (Normal (Some (cloneRoom config env session templateRoom)),
              mkRunState (context st)
                (trace st ++
                   [LogSuccess (created_log config session
                                  (cloneRoom config env session templateRoom));
                    CreateConversationRoom (userId session)
                      (cloneRoom config env session templateRoom)]))
         end
    else (Normal joinRoom, st).
Proof.
  unfold clone_template_room, bind, get_context. simpl.
  destruct (_ && _); [| done].
  destruct (getTemplateConversationRoom env); [| done].
  unfold emit, modify, ret. simpl. by rewrite <- app_assoc.
Qed.

(** Step 3 finds nothing when it does not apply or no public room exists. *)
Lemma adopt_public_room_none (st : State) :
  autoCreateRoomFromUser config = true \/ isDirect session = true
  \/ queryPublicConversationRoom env = None ->
  adopt_public_room config env session None st = (Normal None, st).
Proof.
  intros Hpublic. rewrite adopt_public_room_run.
  destruct Hpublic as [-> | [-> | ->]]; simpl; rewrite ?andb_false_r; simpl;
    try done.
  by destruct (_ && _).
Qed.

Lemma no_command_none (context : ChainMiddlewareContext) :
  command context = None -> no_command context = true.
Proof. intros H. unfold no_command. by rewrite H. Qed.

(** X10: when the run comes to step 4 and there is no template room (a
    user without joined rooms and without a command, and no public room to
    fall back on), the handler returns [SKIPPED]: it creates nothing, calls
    no collaborator after step 1 and does not write [context.options.room]. *)
Theorem missing_template_skips (st st1 : State) :
  match_room_name config env session
    (queryJoinedConversationRoom env (room_resolve_name (context st))) st
  = (Normal None, st1) ->
  getAllJoinedConversationRoom env = [] ->
  command (context st) = None ->
  autoCreateRoomFromUser config = true \/ isDirect session = true
  \/ queryPublicConversationRoom env = None ->
  getTemplateConversationRoom env = None ->
  run_handler (resolve_room config env session) st = (Returned SKIPPED, st1)
  /\ trace st1 = trace st
  /\ options_room (context st1) = options_room (context st).
Proof.
  intros Hstep1 Hnil Hcmd Hpublic Htemplate.
  destruct (match_room_name_frame _ _ _ _ Hstep1) as (Htr & Hcmd1 & _ & Hroom).
  split; [| done].
  apply resolve_room_select_exit.
  rewrite (select_room_after_match _ _ _ _ _ _ Hstep1).
  rewrite no_joined_skip_pick by done.
  unfold bind. rewrite adopt_public_room_none by done.
  assert (Hnc : no_command (context st1) = true).
  { apply no_command_none. congruence. }
  by rewrite clone_template_room_run, Hnc, Htemplate.
Qed.

(** X11: a message that carries a non-empty command, from a user without
    joined rooms, passes the handler whatever the configuration: the run
    ends with [CONTINUE], [context.options.room] is left undefined, and no
    room is looked for in public rooms, created or switched to. *)
Theorem command_without_room (st : State) (cmd : string) :
  command (context st) = Some cmd -> cmd <> EmptyString ->
  getAllJoinedConversationRoom env = [] -> joined_consistent env ->
  exists st',
    run_handler (resolve_room config env session) st = (Returned CONTINUE, st')
    /\ options_room (context st') = None
    /\ trace st' = trace st.
Proof.
  intros Hcmd Hne Hnil Hcons.
  assert (Hmatch : exists st1,
             match_room_name config env session
               (queryJoinedConversationRoom env (room_resolve_name (context st))) st
             = (Normal None, st1)).
  { destruct (allowChatWithRoomName config) eqn:Hallow.
    - rewrite match_room_name_enabled by done.
      rewrite no_joined_matchedRoom by done.
      assert (Hc : needContinue config session (context st) = true).
      { apply needContinue_trigger. do 3 right. by rewrite Hcmd. }
      rewrite Hc. simpl. by eexists.
    - rewrite match_room_name_disabled by done.
      rewrite no_joined_no_match by done. by eexists. }
  destruct Hmatch as (st1 & Hstep1).
  destruct (match_room_name_frame _ _ _ _ Hstep1) as (Htr & Hcmd1 & _ & _).
  assert (Hsel : select_room config env session st = (Normal None, st1)).
  { rewrite (select_room_after_match _ _ _ _ _ _ Hstep1).
    rewrite no_joined_skip_pick by done.
    assert (Hnc : no_command (context st1) = false).
    { unfold no_command. rewrite Hcmd1, Hcmd. by destruct cmd. }
    unfold bind. rewrite adopt_public_room_run, Hnc, andb_false_r.
    by rewrite clone_template_room_run, Hnc, andb_false_r. }
  rewrite (resolve_room_after_select _ _ _ _ _ _ Hsel). simpl.
  eexists. split; [done |]. by split.
Qed.

(** X12: in a group chat, with [autoCreateRoomFromUser] disabled, a user
    without joined rooms and without a command who reaches step 3 is given
    the public room the repository offers.  The room is logged but not
    switched to and nothing is created; a room that is not an auto-updated
    template clone is stored in the context as it is. *)
Theorem public_room_adopted (st st1 : State) (room : ConversationRoom) :
  match_room_name config env session
    (queryJoinedConversationRoom env (room_resolve_name (context st))) st
  = (Normal None, st1) ->
  getAllJoinedConversationRoom env = [] ->
  command (context st) = None ->
  autoCreateRoomFromUser config = false -> isDirect session = false ->
  queryPublicConversationRoom env = Some room ->
  select_room config env session st =
    (Normal (Some room),
     mkRunState (context st1)
       (trace st ++ [LogSuccess (adopted_public_log session room)]))
  /\ (is_template_clone room && autoUpdate room = false ->
      run_handler (resolve_room config env session) st =
        (Returned CONTINUE,
         mkRunState (with_room (Some room) (context st1))
           (trace st ++ [LogSuccess (adopted_public_log session room)]))).
Proof.
  intros Hstep1 Hnil Hcmd Hoff Hgroup Hpublic.
  destruct (match_room_name_frame _ _ _ _ Hstep1) as (Htr & Hcmd1 & _ & _).
  assert (Hsel : select_room config env session st =
            (Normal (Some room),
             mkRunState (context st1)
               (trace st ++ [LogSuccess (adopted_public_log session room)]))).
  { rewrite (select_room_after_match _ _ _ _ _ _ Hstep1).
    rewrite no_joined_skip_pick by done.
    assert (Hnc : no_command (context st1) = true).
    { apply no_command_none. congruence. }
    unfold bind. rewrite adopt_public_room_run, Hnc, Hoff, Hgroup, Hpublic. simpl.
    rewrite clone_template_room_run. simpl. by rewrite Htr. }
  split; [exact Hsel |]. intros Hskip.
  rewrite (resolve_room_after_select _ _ _ _ _ _ Hsel).
  by rewrite sync_template_clone_skip.
Qed.


End ResolveRoomShape.

(** X14: a drift of the model alone is never written back.  Every run that
    takes up an auto-updated template clone whose preset and chat mode are
    the live ones but whose stored model is not calls [clearCache] once and
    upserts nothing; the stored record stays as it is, so the next run that
    takes it up clears the cache again. *)
Theorem model_drift_not_persisted (config : Config) (room : ConversationRoom) :
  visibility room = template_clone -> autoUpdate room = true ->
  preset room = defaultPreset config -> chatMode room = defaultChatMode config ->
  model room <> defaultModel config ->
  forall (env : Collaborators) (session : Session) (st st1 : ResolveRoom.State),
    ResolveRoom.select_room config env session st = (Normal (Some room), st1) ->
    exists st',
      run_handler (ResolveRoom.resolve_room config env session) st
      = (Returned CONTINUE, st')
      /\ trace st' = trace st1 ++ [ClearCache room]
      /\ calls is_clear_cache (trace st') = S (calls is_clear_cache (trace st))
      /\ calls is_upsert (trace st') = calls is_upsert (trace st).
Proof.
  intros Hvis Hauto Hpreset Hmode Hmodel env session st st1 Hsel.
  rewrite (resolve_room_after_select _ _ _ _ _ _ Hsel).
  rewrite sync_template_clone_run by done.
  apply String.eqb_eq in Hpreset, Hmode. apply String.eqb_neq in Hmodel.
  rewrite Hpreset, Hmode, Hmodel. simpl.
  eexists. split; [done |]. split; [done |]. simpl.
  destruct (select_room_calls _ _ _ _ _ _ Hsel) as (Hup & _ & Hcache).
  rewrite !calls_app, Hup, Hcache. unfold calls. simpl. lia.
Qed.

Section ResolveRoomMoreRuns.

Import ResolveRoom Fixtures MoreFixtures.

Lemma resolve_room_clone_synced_witness :
  preset (with_defaults config room_stale) = defaultPreset config
  /\ model (with_defaults config room_stale) = defaultModel config
  /\ chatMode (with_defaults config room_stale) = defaultChatMode config.
Proof.
  apply (resolve_room_clone_synced config (repository [room_stale]) group_session
           (start "hello there")
           (run_handler (resolve_room config (repository [room_stale]) group_session)
              (start "hello there")).2);
    reflexivity.
Defined.

Lemma named_room_adopted_witness :
  select_room config (repository [room_public; room_private]) group_session
    (start_with "hello there" None (Some "plaza"))
  = (Normal (Some room_public), start_with "hello there" None (Some "plaza"))
  /\ select_room config_room_name (repository [room_public; room_private])
       group_session (start "plaza hello there")
     = (Normal (Some room_public),
        mkRunState
          (with_inputMessage "hellothere " (context (start "plaza hello there")))
          []).
Proof.
  destruct (named_room_adopted config (repository [room_public; room_private])
              group_session (start_with "hello there" None (Some "plaza"))
              room_public) as [Hhint _].
  destruct (named_room_adopted config_room_name
              (repository [room_public; room_private])
              group_session (start "plaza hello there") room_public)
    as [_ Hword].
  split.
  - apply Hhint; reflexivity.
  - apply (Hword eq_refl "plaza" ["hello"; "there"]); [reflexivity | discriminate | reflexivity].
Defined.

Lemma missing_template_skips_witness :
  run_handler
    (resolve_room config (repository_with [] None None) group_session)
    (start "hello there")
  = (Returned SKIPPED, start "hello there").
Proof.
  apply (missing_template_skips config (repository_with [] None None)
           group_session (start "hello there") (start "hello there"));
    [reflexivity | reflexivity | reflexivity | by right; right | reflexivity].
Defined.

Lemma command_without_room_witness :
  exists st',
    run_handler
      (resolve_room config_room_name_auto_create (repository []) group_session)
      (start_with "chat hello" (Some "chat") None)
    = (Returned CONTINUE, st')
    /\ options_room (context st') = None
    /\ trace st' = [].
Proof.
  apply (command_without_room config_room_name_auto_create (repository [])
           group_session (start_with "chat hello" (Some "chat") None) "chat");
    [reflexivity | discriminate | reflexivity | by intros [name |] r].
Defined.

Lemma public_room_adopted_witness :
  run_handler
    (resolve_room config (repository_with [] (Some room_public) (Some room_template))
       group_session)
    (start "hello there")
  = (Returned CONTINUE,
     mkRunState (with_room (Some room_public) (context (start "hello there")))
       [LogSuccess (adopted_public_log group_session room_public)]).
Proof.
  destruct (public_room_adopted config
              (repository_with [] (Some room_public) (Some room_template))
              group_session (start "hello there") (start "hello there")
              room_public)
    as [_ Hrun];
    [reflexivity | reflexivity | reflexivity | reflexivity | reflexivity
    | reflexivity |].
  apply Hrun. reflexivity.
Defined.


Lemma model_drift_not_persisted_witness :
  exists st',
    run_handler (resolve_room config (repository [room_old_model]) group_session)
      (start "hello there")
    = (Returned CONTINUE, st')
    /\ calls is_clear_cache (trace st') = 1%nat
    /\ calls is_upsert (trace st') = 0%nat.
Proof.
  destruct (model_drift_not_persisted config room_old_model)
    with (env := repository [room_old_model]) (session := group_session)
         (st := start "hello there")
         (st1 := mkRunState (context (start "hello there"))
                   [SwitchConversationRoom "u1" (ById 6);
                    LogSuccess (switched_log group_session room_old_model)])
    as (st' & Hrun & _ & Hcache & Hupsert);
    [reflexivity | reflexivity | reflexivity | reflexivity | discriminate
    | reflexivity |].
  exists st'. split; [exact Hrun |]. by split.
Defined.

End ResolveRoomMoreRuns.

(** ** The image renderer: filling the template *)

Section StringFacts.

Import ImageRenderer.

Lemma length_append (a b : string) :
  String.length (a +:+ b) = (String.length a + String.length b)%nat.
Proof.
  induction a as [| c a IH]; [done |].
  change (S (String.length (a +:+ b)) = S (String.length a + String.length b)).
  by rewrite IH.
Qed.

Lemma prefix_append (p t : string) : String.prefix p (p +:+ t) = true.
Proof.
  induction p as [| c p IH]; [by destruct t |].
  change (String.prefix (String c p) (String c (p +:+ t)) = true).
  simpl. by destruct (ascii_dec c c).
Qed.

Lemma prefix_split (p s : string) :
  String.prefix p s = true -> exists t, s = p +:+ t.
Proof.
  revert s. induction p as [| c p IH]; intros s H.
  { by exists s. }
  destruct s as [| c' s]; [done |]. simpl in H.
  destruct (ascii_dec c c') as [<- |]; [| done].
  destruct (IH s H) as [t ->]. by exists t.
Qed.

Lemma prefix_cons_ne (c c' : ascii) (p s : string) :
  c <> c' -> String.prefix (String c p) (String c' s) = false.
Proof. intros Hne. simpl. by destruct (ascii_dec c c'). Qed.

Lemma prefix_cons_eq (c : ascii) (p s : string) :
  String.prefix (String c p) (String c s) = String.prefix p s.
Proof. simpl. by destruct (ascii_dec c c). Qed.

Lemma take_append (a t : string) : take (String.length a) (a +:+ t) = a.
Proof.
  induction a as [| c a IH]; [by destruct t |].
  change (String c (take (String.length a) (a +:+ t)) = String c a).
  by rewrite IH.
Qed.

Lemma drop_append (a t : string) (n : nat) :
  drop (String.length a + n) (a +:+ t) = drop n t.
Proof. induction a as [| c a IH]; [done |]. exact IH. Qed.

Lemma drop_all (a t : string) : drop (String.length a) (a +:+ t) = t.
Proof.
  rewrite <- (Nat.add_0_r (String.length a)), drop_append. by destruct t.
Qed.

Lemma indexOf_unfold (searchValue s : string) :
  indexOf searchValue s =
    if String.prefix searchValue s then Some 0%nat
    else match s with
         | EmptyString => None
         | String _ rest => S <$> indexOf searchValue rest
         end.
Proof. by destruct s. Qed.

Lemma indexOf_here (searchValue t : string) :
  indexOf searchValue (searchValue +:+ t) = Some 0%nat.
Proof. by rewrite indexOf_unfold, prefix_append. Qed.

(** A search for a text that begins with a dollar sign runs over a prefix
    without dollar signs. *)
Lemma indexOf_dollar_free (p a t : string) :
  dollar_free a = true ->
  indexOf (String "$" p) (a +:+ t)
  = (fun n => String.length a + n)%nat <$> indexOf (String "$" p) t.
Proof.
  intros Ha. induction a as [| c a IH].
  { change (EmptyString +:+ t) with t. by destruct (indexOf _ t). }
  simpl in Ha. apply andb_prop in Ha as [Hc Ha].
  change (String c a +:+ t) with (String c (a +:+ t)).
  rewrite indexOf_unfold, prefix_cons_ne.
  2:{ intros <-. by rewrite Ascii.eqb_refl in Hc. }
  rewrite (IH Ha). by destruct (indexOf _ t).
Qed.

Lemma indexOf_none (searchValue s : string) :
  ~ occurs searchValue s -> indexOf searchValue s = None.
Proof.
  induction s as [| c s IH]; intros Hno; rewrite indexOf_unfold.
  - destruct (String.prefix searchValue EmptyString) eqn:E; [| done].
    destruct (prefix_split _ _ E) as [t Ht]. destruct Hno.
    exists EmptyString, t. exact Ht.
  - destruct (String.prefix searchValue (String c s)) eqn:E.
    + destruct (prefix_split _ _ E) as [t Ht]. destruct Hno.
      exists EmptyString, t. exact Ht.
    + rewrite IH; [done |]. intros (a & b & ->). apply Hno.
      by exists (String c a), b.
Qed.

Lemma indexOf_occurs (searchValue s : string) :
  occurs searchValue s -> exists n, indexOf searchValue s = Some n.
Proof.
  intros (a & b & ->). induction a as [| c a IH].
  { exists 0%nat. change (EmptyString +:+ searchValue +:+ b) with (searchValue +:+ b).
    apply indexOf_here. }
  change (String c a +:+ searchValue +:+ b)
    with (String c (a +:+ searchValue +:+ b)).
  rewrite indexOf_unfold. destruct (String.prefix _ _); [by eexists |].
  destruct IH as [n ->]. by eexists.
Qed.

Lemma dollar_free_append (a b : string) :
  dollar_free (a +:+ b) = dollar_free a && dollar_free b.
Proof.
  induction a as [| c a IH]; [done |].
  change (negb (Ascii.eqb c "$") && dollar_free (a +:+ b)
          = negb (Ascii.eqb c "$") && dollar_free a && dollar_free b).
  by rewrite IH, andb_assoc.
Qed.

(** A replacement text without dollar signs is inserted as it is. *)
Lemma GetSubstitution_dollar_free (matched preceding following r r' : string) :
  dollar_free r = true ->
  GetSubstitution matched preceding following (r +:+ r')
  = r +:+ GetSubstitution matched preceding following r'.
Proof.
  intros Hr. induction r as [| c r IH]; [done |].
  simpl in Hr. apply andb_prop in Hr as [Hc Hr].
  apply negb_true_iff in Hc.
  change (String c r +:+ r') with (String c (r +:+ r')).
  simpl. rewrite Hc. by rewrite (IH Hr).
Qed.

Lemma GetSubstitution_literal (matched preceding following r : string) :
  dollar_free r = true ->
  GetSubstitution matched preceding following r = r.
Proof.
  intros Hr. rewrite <- (append_empty_r r) at 1.
  rewrite GetSubstitution_dollar_free by done. simpl. apply append_empty_r.
Qed.

(** [replace] at a known first occurrence. *)
Lemma replace_at_position (s searchValue replaceValue a b : string) :
  s = a +:+ searchValue +:+ b ->
  indexOf searchValue s = Some (String.length a) ->
  replace s searchValue replaceValue
  = a +:+ GetSubstitution searchValue a b replaceValue +:+ b.
Proof.
  intros -> Hidx. unfold replace. rewrite Hidx.
  rewrite take_append, drop_append, drop_all. done.
Qed.

(** [replace] of a text that begins with a dollar sign, after a prefix
    without dollar signs. *)
Lemma replace_after_dollar_free (p replaceValue a b : string) :
  dollar_free a = true ->
  replace (a +:+ String "$" p +:+ b) (String "$" p) replaceValue
  = a +:+ GetSubstitution (String "$" p) a b replaceValue +:+ b.
Proof.
  intros Ha. apply replace_at_position; [done |].
  rewrite indexOf_dollar_free by done. rewrite indexOf_here. simpl.
  by rewrite Nat.add_0_r.
Qed.

Lemma replace_absent (s searchValue replaceValue : string) :
  ~ occurs searchValue s -> replace s searchValue replaceValue = s.
Proof. intros Hno. unfold replace. by rewrite indexOf_none. Qed.

End StringFacts.

Section ImageRendererFacts.

Import ImageRenderer.

Variables (rt : Runtime) (dirname markdownText : string).

(** X15: when the template holds the text slot and, after it, the QR slot,
    with no dollar sign before or between them, and neither the converted
    markdown nor the QR data URL holds a dollar sign, [render] writes the
    template with the converted markdown in the first slot and the QR data
    URL in the second, to [out.html] beside the template, and then loads
    that file. *)
Theorem render_fills_template (a m b : string) :
  readFileSync rt (dirname +:+ "/../../resources/template.html")
  = a +:+ "${content}" +:+ m +:+ "${qr_data}" +:+ b ->
  dollar_free a = true -> dollar_free m = true ->
  dollar_free (_renderMarkdownToHtml rt markdownText) = true ->
  dollar_free (_textToQrcode rt markdownText) = true ->
  render rt dirname markdownText =
    [WriteFileSync (dirname +:+ "/../../resources/out.html")
       (a +:+ _renderMarkdownToHtml rt markdownText +:+ m
          +:+ _textToQrcode rt markdownText +:+ b);
     Reload;
     Goto ("file://" +:+ dirname +:+ "/../../resources/out.html") 20000;
     Screenshot].
Proof.
  intros Htemplate Ha Hm Hhtml Hqr. unfold render, outTemplateHtml.
  rewrite Htemplate. do 2 f_equal.
  rewrite (replace_after_dollar_free "{content}") by done.
  rewrite GetSubstitution_literal by done.
  rewrite <- !append_assoc.
  rewrite (append_assoc _ "${qr_data}" b).
  rewrite (replace_after_dollar_free "{qr_data}").
  2:{ by rewrite !dollar_free_append, Ha, Hhtml, Hm. }
  rewrite GetSubstitution_literal by done.
  by rewrite !append_assoc.
Qed.

(** X16: when the template does not hold the text slot, the converted
    markdown never reaches the page: [render] writes the template with the
    QR slot alone filled, with the QR data URL of the message, whatever
    [_renderMarkdownToHtml] returns; and a template without either slot is
    written back unchanged. *)
Theorem render_without_slot (templateHtml : string) :
  readFileSync rt (dirname +:+ "/../../resources/template.html") = templateHtml ->
  ~ occurs "${content}" templateHtml ->
  render rt dirname markdownText =
    [WriteFileSync (dirname +:+ "/../../resources/out.html")
       (replace templateHtml "${qr_data}" (_textToQrcode rt markdownText));
     Reload;
     Goto ("file://" +:+ dirname +:+ "/../../resources/out.html") 20000;
     Screenshot]
  /\ (forall toHtml : string -> string,
        render (mkRuntime (readFileSync rt) toHtml (_textToQrcode rt))
          dirname markdownText
        = render rt dirname markdownText)
  /\ (~ occurs "${qr_data}" templateHtml ->
      render rt dirname markdownText =
        [WriteFileSync (dirname +:+ "/../../resources/out.html") templateHtml;
         Reload;
         Goto ("file://" +:+ dirname +:+ "/../../resources/out.html") 20000;
         Screenshot]).
Proof.
  intros Htemplate Hno.
  assert (Hrender : render rt dirname markdownText =
            [WriteFileSync (dirname +:+ "/../../resources/out.html")
               (replace templateHtml "${qr_data}" (_textToQrcode rt markdownText));
             Reload;
             Goto ("file://" +:+ dirname +:+ "/../../resources/out.html") 20000;
             Screenshot]).
  { unfold render, outTemplateHtml. rewrite Htemplate.
    by rewrite (replace_absent _ "${content}"). }
  split; [exact Hrender |]. split.
  - intros toHtml. rewrite Hrender. unfold render, outTemplateHtml.
    cbn [readFileSync _renderMarkdownToHtml _textToQrcode]. rewrite Htemplate.
    by rewrite (replace_absent _ "${content}").
  - intros Hqr. rewrite Hrender. by rewrite replace_absent.
Qed.

(** X17: the converted markdown is not inserted as it is but read as a
    replacement pattern: a pair of dollar signs in it comes out as a single
    dollar sign on the page. *)
Theorem render_collapses_dollars (a m b x y : string) :
  readFileSync rt (dirname +:+ "/../../resources/template.html")
  = a +:+ "${content}" +:+ m +:+ "${qr_data}" +:+ b ->
  _renderMarkdownToHtml rt markdownText = x +:+ "$$" +:+ y ->
  dollar_free a = true -> dollar_free m = true ->
  dollar_free x = true -> dollar_free y = true ->
  String.prefix "{" (y +:+ m) = false ->
  dollar_free (_textToQrcode rt markdownText) = true ->
  render rt dirname markdownText =
    [WriteFileSync (dirname +:+ "/../../resources/out.html")
       (a +:+ x +:+ "$" +:+ y +:+ m +:+ _textToQrcode rt markdownText +:+ b);
     Reload;
     Goto ("file://" +:+ dirname +:+ "/../../resources/out.html") 20000;
     Screenshot].
Proof.
  intros Htemplate Hhtml Ha Hm Hx Hy Hbrace Hqr. unfold render, outTemplateHtml.
  rewrite Htemplate, Hhtml. do 2 f_equal.
  rewrite (replace_after_dollar_free "{content}") by done.
  rewrite GetSubstitution_dollar_free by done.
  change (GetSubstitution "${content}" a (m +:+ "${qr_data}" +:+ b) ("$$" +:+ y))
    with ("$" +:+ GetSubstitution "${content}" a (m +:+ "${qr_data}" +:+ b) y).
  rewrite GetSubstitution_literal by done.
  set (qr := _textToQrcode rt markdownText) in *.
  assert (Hnot : String.prefix "${qr_data}"
                   (String "$" ((y +:+ m) +:+ "${qr_data}" +:+ b)) = false).
  { destruct (y +:+ m) as [| c t] eqn:E; [reflexivity |].
    change (String c t +:+ "${qr_data}" +:+ b)
      with (String c (t +:+ "${qr_data}" +:+ b)).
    rewrite prefix_cons_eq. apply prefix_cons_ne. intros <-.
    rewrite prefix_cons_eq in Hbrace. by destruct t. }
  rewrite (replace_at_position _ "${qr_data}" qr
             ((a +:+ x) +:+ "$" +:+ (y +:+ m)) b).
  - rewrite GetSubstitution_literal by done. by rewrite !append_assoc.
  - by rewrite !append_assoc.
  - transitivity
      (indexOf "${qr_data}"
         ((a +:+ x) +:+ String "$" ((y +:+ m) +:+ "${qr_data}" +:+ b))).
    { f_equal. by rewrite !append_assoc. }
    rewrite (indexOf_dollar_free "{qr_data}" (a +:+ x)).
    2:{ by rewrite dollar_free_append, Ha, Hx. }
    rewrite indexOf_unfold, Hnot.
    rewrite (indexOf_dollar_free "{qr_data}" (y +:+ m)).
    2:{ by rewrite dollar_free_append, Hy, Hm. }
    rewrite indexOf_here. simpl. f_equal.
    rewrite !length_append. simpl. lia.
Qed.


End ImageRendererFacts.

Section ImageRendererRuns.

Import ImageRenderer MoreFixtures.

Lemma render_fills_template_witness :
  render (page_runtime page_template) "/app/lib/renders" "hi" =
    [WriteFileSync "/app/lib/renders/../../resources/out.html"
       "<body><p>hi</p><img src='data:image/png;base64,iVBORw0KGgo='></body>";
     Reload;
     Goto "file:///app/lib/renders/../../resources/out.html" 20000;
     Screenshot].
Proof.
  apply (render_fills_template (page_runtime page_template) "/app/lib/renders"
           "hi" "<body>" "<img src='" "'></body>");
    reflexivity.
Defined.

Lemma render_without_slot_witness :
  render (page_runtime "<body></body>") "/app/lib/renders" "hi" =
    [WriteFileSync "/app/lib/renders/../../resources/out.html" "<body></body>";
     Reload;
     Goto "file:///app/lib/renders/../../resources/out.html" 20000;
     Screenshot].
Proof.
  assert (Hno : forall slot,
            indexOf slot "<body></body>" = None -> ~ occurs slot "<body></body>").
  { intros slot Hnone Hocc. apply indexOf_occurs in Hocc as [n Hn]. congruence. }
  destruct (render_without_slot (page_runtime "<body></body>")
              "/app/lib/renders" "hi" "<body></body>" eq_refl
              (Hno "${content}" eq_refl))
    as (_ & _ & Hsame).
  apply Hsame, (Hno "${qr_data}"). reflexivity.
Defined.

Lemma render_collapses_dollars_witness :
  render (page_runtime page_template) "/app/lib/renders" "a$$b" =
    [WriteFileSync "/app/lib/renders/../../resources/out.html"
       "<body><p>a$b</p><img src='data:image/png;base64,iVBORw0KGgo='></body>";
     Reload;
     Goto "file:///app/lib/renders/../../resources/out.html" 20000;
     Screenshot].
Proof.
  apply (render_collapses_dollars (page_runtime page_template) "/app/lib/renders"
           "a$$b" "<body>" "<img src='" "'></body>" "<p>a" "b</p>");
    reflexivity.
Defined.


End ImageRendererRuns.

(** ** The OpenAI requester *)

Section RequesterUrl.

Import OpenAIRequester.

Lemma endsWith_unfold (s p : string) :
  endsWith s p =
    String.eqb s p
    || match s with
       | EmptyString => false
       | String _ rest => endsWith rest p
       end.
Proof. by destruct s. Qed.

Lemma endsWith_append (s p : string) : endsWith (s +:+ p) p = true.
Proof.
  induction s as [| c s IH].
  - change (EmptyString +:+ p) with p. rewrite endsWith_unfold.
    by rewrite String.eqb_refl.
  - change (String c s +:+ p) with (String c (s +:+ p)).
    rewrite endsWith_unfold, IH. apply orb_true_r.
Qed.

Lemma endsWith_split (s p : string) :
  endsWith s p = true -> exists base, s = base +:+ p.
Proof.
  induction s as [| c s IH]; rewrite endsWith_unfold; intros H.
  - apply orb_prop in H as [H | H]; [| done].
    apply String.eqb_eq in H as <-. by exists EmptyString.
  - apply orb_prop in H as [H | H].
    + apply String.eqb_eq in H as <-. by exists EmptyString.
    + destruct (IH H) as [base ->]. by exists (String c base).
Qed.

(** X19: [_concatUrl] puts a slash between the endpoint and the path
    exactly when the endpoint does not end with one, and takes nothing
    away: an endpoint without a trailing slash and the same endpoint
    followed by one slash give the same address, while every further slash
    at the end of the endpoint is kept. *)
Theorem concatUrl_trailing_slash (apiEndpoint url : string) :
  (endsWith apiEndpoint "/" = true -> _concatUrl apiEndpoint url = apiEndpoint +:+ url)
  /\ (endsWith apiEndpoint "/" = false ->
      _concatUrl apiEndpoint url = apiEndpoint +:+ "/" +:+ url
      /\ _concatUrl (apiEndpoint +:+ "/") url = _concatUrl apiEndpoint url)
  /\ _concatUrl (apiEndpoint +:+ "/" +:+ "/") url
     = apiEndpoint +:+ "/" +:+ "/" +:+ url
  /\ (exists base,
        (apiEndpoint = base \/ apiEndpoint = base +:+ "/")
        /\ _concatUrl apiEndpoint url = base +:+ "/" +:+ url).
Proof.
  unfold _concatUrl. split; [| split; [| split]].
  - by intros ->.
  - intros E. rewrite E. split; [done |].
    rewrite endsWith_append. by rewrite append_assoc.
  - rewrite <- append_assoc, endsWith_append. by rewrite !append_assoc.
  - destruct (endsWith apiEndpoint "/") eqn:E.
    + destruct (endsWith_split _ _ E) as [base ->]. exists base.
      split; [by right |]. by rewrite append_assoc.
    + exists apiEndpoint. by split; [left |].
Qed.

End RequesterUrl.

Section RequesterPost.

Import OpenAIRequester.

Context {Json : Type}.

Variable JSON_stringify : gmap string (option Json) -> string.

(** The loop of [_post] after the keys of [entries] have been visited. *)
Lemma delete_nullish_fold (data : gmap string (option Json))
  (entries : list (string * option Json)) (key : string) :
  foldr
    (fun (entry : string * option Json) (data : gmap string (option Json)) =>
       match data !! entry.1 with
       | Some None => delete entry.1 data
       | _ => data
       end)
    data entries !! key
  = match data !! key with
    | Some None => if bool_decide (key ∈ entries.*1) then None else Some None
    | other => other
    end.
Proof.
  induction entries as [| [k v] entries IH].
  { simpl. by destruct (data !! key) as [[] |]. }
  cbn [foldr fmap list_fmap fst].
  set (acc := foldr _ data entries) in *.
  destruct (decide (key = k)) as [-> | Hne].
  - rewrite bool_decide_eq_true_2 by (apply elem_of_cons; by left).
    destruct (acc !! k) as [[j |] |] eqn:Eacc.
    + rewrite Eacc.
      destruct (data !! k) as [[] |]; [done | | done].
      by destruct (bool_decide (k ∈ entries.*1)).
    + rewrite lookup_delete_eq.
      by destruct (data !! k) as [[] |].
    + rewrite Eacc.
      destruct (data !! k) as [[] |]; [done | | done].
      by destruct (bool_decide (k ∈ entries.*1)).
  - assert (Hmem : bool_decide (key ∈ k :: entries.*1)
                   = bool_decide (key ∈ entries.*1)).
    { apply bool_decide_ext. rewrite elem_of_cons. tauto. }
    rewrite Hmem, <- IH.
    destruct (acc !! k) as [[j |] |]; [done | | done].
    by rewrite lookup_delete_ne.
Qed.

(** X20: the body [_post] sends is the serialisation of [data] without the
    properties whose value is [null] or [undefined]; every other property
    is sent with its value.  The request is a POST with the JSON content
    type, and the options a caller passes (the abort signal of
    [completionStream]) have no part in it. *)
Theorem post_drops_nullish (apiEndpoint url : string)
  (data : gmap string (option Json)) (params : RequestInit) :
  exists sent_data,
    _post JSON_stringify apiEndpoint url data params =
      mkRequest (_concatUrl apiEndpoint url) POST
        {[ "Content-Type" := "application/json" ]}
        (Some (JSON_stringify sent_data))
    /\ (forall key,
          sent_data !! key =
            match data !! key with
            | Some (Some value) => Some (Some value)
            | _ => None
            end)
    /\ forall params',
        _post JSON_stringify apiEndpoint url data params'
        = _post JSON_stringify apiEndpoint url data params.
Proof.
  exists (delete_nullish data). split; [done |]. split; [| done].
  intros key. unfold delete_nullish. rewrite delete_nullish_fold.
  destruct (data !! key) as [[value |] |] eqn:E; [done | | done].
  rewrite bool_decide_eq_true_2; [done |].
  apply list_elem_of_fmap. exists (key, None). split; [done |].
  by apply elem_of_map_to_list.
Qed.

End RequesterPost.

Section RequesterStream.

Import OpenAIRequester.

Variable rt : Runtime.

Lemma loop_done (findTools : bool) (items1 items2 : list SseItem)
  (st : LoopState) :
  loop rt findTools st (items1 ++ SseEvent "[DONE]" :: items2)
  = loop rt findTools st items1.
Proof.
  revert st. induction items1 as [| item items1 IH]; intros st; [done |].
  destruct item as [chunk |]; [| done].
  simpl. destruct (String.eqb chunk "[DONE]"); [done |].
  destruct (pass rt findTools st chunk) as [g st' | | e].
  - by rewrite IH.
  - apply IH.
  - destruct (5 <? errorCount st)%nat; [done | apply IH].
Qed.

(** X21: the stream ends at the first [DONE] event as it does at the end
    of the events: whatever follows the first [DONE] is neither parsed nor
    yielded, and cannot make the stream fail. *)
Theorem completionStream_done (findTools : bool) (items1 items2 : list SseItem) :
  completionStream rt findTools (Some (items1 ++ SseEvent "[DONE]" :: items2))
  = completionStream rt findTools (Some items1).
Proof. apply loop_done. Qed.

Lemma pass_bad (findTools : bool) (st : LoopState) (chunk : string) :
  bad rt chunk = true ->
  pass rt findTools st chunk = Caught (caught rt chunk).
Proof.
  unfold bad, pass, caught. destruct (JSON_parse rt chunk) as [data |]; [| done].
  by intros ->.
Qed.

Lemma pass_good (findTools : bool) (st : LoopState) (chunk : string) :
  bad rt chunk = false ->
  pass rt findTools st chunk = Continue
  \/ exists g st',
      pass rt findTools st chunk = Yield g st'
      /\ errorCount st' = errorCount st.
Proof.
  unfold bad, pass. destruct (JSON_parse rt chunk) as [data |]; [| done].
  intros ->. destruct (choices data) as [[| choice rest] |]; [by left | | by left].
  right. by eexists _, _.
Qed.

Lemma loop_error_budget (findTools : bool) (chunks : list string)
  (st : LoopState) :
  Forall (fun chunk => chunk <> "[DONE]") chunks ->
  (errorCount st <= 6)%nat ->
  let result := loop rt findTools st (SseEvent <$> chunks) in
  (result.2 = Finished
   <-> (errorCount st + length (List.filter (bad rt) chunks) <= 6)%nat)
  /\ (forall e, result.2 = Failed e ->
        exists chunk,
          List.filter (bad rt) chunks !! (6 - errorCount st)%nat = Some chunk
          /\ e = mkChatLunaError API_REQUEST_FAILED (caught rt chunk)).
Proof.
  intros Hdone. revert st.
  induction Hdone as [| chunk chunks Hchunk _ IH]; intros st Hcount.
  { simpl. split; [split; [lia | done] | done]. }
  cbn [fmap list_fmap loop].
  apply String.eqb_neq in Hchunk. rewrite Hchunk.
  cbn [List.filter].
  destruct (bad rt chunk) eqn:Hbad.
  - rewrite (pass_bad _ _ _ Hbad).
    destruct (Nat.ltb_spec 5 (errorCount st)).
    + simpl. split; [split; [done | lia] |].
      intros e [= <-]. exists chunk.
      replace (6 - errorCount st)%nat with 0%nat by lia. done.
    + destruct (IH (mkLoopState (accumulated st) (defaultRole st)
                      (errorCount st + 1))) as [Hfin Hfail]; [simpl; lia |].
      simpl in Hfin, Hfail. split.
      * rewrite Hfin. simpl. lia.
      * intros e He. destruct (Hfail e He) as (c & Hc & ->).
        exists c. split; [| done].
        replace (6 - errorCount st)%nat with (S (6 - (errorCount st + 1)))%nat
          by lia.
        exact Hc.
  - destruct (pass_good findTools st chunk Hbad) as [-> | (g & st' & -> & Heq)].
    + apply IH. exact Hcount.
    + destruct (IH st') as [Hfin Hfail]; [lia |].
      rewrite Heq in Hfin, Hfail.
      destruct (loop rt findTools st' (SseEvent <$> chunks)) as [gs e'].
      simpl in *. by split.
Qed.

(** X22: the stream puts up with six chunks it cannot use, those that do
    not parse or that carry an error, and fails on the seventh.  For events
    without [DONE], it ends normally exactly when at most six chunks are
    bad; otherwise it fails with [API_REQUEST_FAILED], wrapping what the
    seventh bad chunk raised. *)
Theorem completionStream_error_budget (findTools : bool) (chunks : list string) :
  Forall (fun chunk => chunk <> "[DONE]") chunks ->
  let result := completionStream rt findTools (Some (SseEvent <$> chunks)) in
  (result.2 = Finished <-> (length (List.filter (bad rt) chunks) <= 6)%nat)
  /\ (forall e, result.2 = Failed e ->
        exists chunk,
          List.filter (bad rt) chunks !! 6%nat = Some chunk
          /\ e = mkChatLunaError API_REQUEST_FAILED (caught rt chunk)).
Proof.
  intros Hdone.
  apply (loop_error_budget findTools chunks (mkLoopState "" "assistant" 0) Hdone).
  simpl. lia.
Qed.

Lemma loop_running (items : list SseItem) (st1 st2 : LoopState) :
  defaultRole st1 = defaultRole st2 -> errorCount st1 = errorCount st2 ->
  (loop rt false st1 items).2 = (loop rt true st2 items).2
  /\ text <$> (loop rt false st1 items).1
     = running (accumulated st1) (text <$> (loop rt true st2 items).1).
Proof.
  revert st1 st2. induction items as [| item items IH]; intros st1 st2 Hrole Hcount;
    [done |].
  destruct item as [chunk |]; [| done].
  simpl. destruct (String.eqb chunk "[DONE]"); [done |].
  unfold pass. destruct (JSON_parse rt chunk) as [data |].
  - destruct (error data).
    + rewrite Hcount. destruct (5 <? errorCount st2)%nat; [done |].
      apply (IH (mkLoopState (accumulated st1) (defaultRole st1)
                   (errorCount st2 + 1))
                (mkLoopState (accumulated st2) (defaultRole st2)
                   (errorCount st2 + 1))); by simpl.
    + destruct (choices data) as [[| choice rest] |]; [by apply IH | | by apply IH].
      cbn [negb]. rewrite Hrole.
      match goal with
      | |- context [loop rt false ?s1 items] =>
          match goal with
          | |- context [loop rt true ?s2 items] =>
              destruct (IH s1 s2) as [Hend Htexts]; [done | done |]
          end
      end.
      destruct (loop rt false _ items) as [gs1 e1].
      destruct (loop rt true _ items) as [gs2 e2].
      simpl in *. split; [done |]. f_equal. exact Htexts.
  - rewrite Hcount. destruct (5 <? errorCount st2)%nat; [done |].
    apply (IH (mkLoopState (accumulated st1) (defaultRole st1)
                 (errorCount st2 + 1))
              (mkLoopState (accumulated st2) (defaultRole st2)
                 (errorCount st2 + 1))); by simpl.
Qed.

(** X23: with and without tools the stream ends the same way and yields
    for the same chunks; with tools each yield carries the text of its own
    delta, without tools it carries the text of all deltas so far, so the
    texts yielded without tools are the running concatenations of the texts
    yielded with tools. *)
Theorem completionStream_accumulates (response : option (list SseItem)) :
  (completionStream rt false response).2 = (completionStream rt true response).2
  /\ text <$> (completionStream rt false response).1
     = running "" (text <$> (completionStream rt true response).1).
Proof.
  destruct response as [items |]; [| done].
  by apply loop_running.
Qed.

End RequesterStream.

Section RequesterAnswers.

Import OpenAIRequester.

(** X24: [embeddings] returns the vectors of the answer in order, one per
    entry of [data], and only when the answer parses and [data] is not
    empty: it never returns an empty array.  Every other case, a failed
    request, a text that does not parse, a missing or an empty [data], ends
    in a [ChatLunaError] with the code [API_REQUEST_FAILED]. *)
Theorem embeddings_result {number : Type}
  (parse : string -> option (CreateEmbeddingResponse number))
  (response : option string) :
  (forall vectors,
     embeddings parse response = inl vectors ->
     vectors <> []
     /\ exists text answer entries,
         response = Some text /\ parse text = Some answer
         /\ data answer = Some entries
         /\ vectors = embedding <$> entries)
  /\ (forall e, embeddings parse response = inr e -> code e = API_REQUEST_FAILED)
  /\ (forall text answer entry entries,
        response = Some text -> parse text = Some answer ->
        data answer = Some (entry :: entries) ->
        embeddings parse response = inl (embedding <$> entry :: entries)).
Proof.
  unfold embeddings. split; [| split].
  - intros vectors. destruct response as [text |]; [| done]. simpl.
    destruct (parse text) as [answer |] eqn:Hparse; [| done].
    destruct (data answer) as [[| entry entries] |] eqn:Hdata; [done | | done].
    intros [= <-]. split; [done |]. by exists text, answer, (entry :: entries).
  - intros e. destruct response as [text |]; simpl; [| by intros [= <-]].
    destruct (parse text) as [answer |]; [| by intros [= <-]].
    destruct (data answer) as [[| entry entries] |]; by intros [= <-].
  - intros text answer entry entries -> Hparse Hdata. simpl.
    by rewrite Hparse, Hdata.
Qed.

(** X25: [getModels] sends one request or two, and the second is the same
    request as the first: a GET of the models address with the JSON content
    type.  It asks again exactly when the first answer parses to an empty
    list of models.  It returns a list of identifiers in two cases only:
    the first answer parses to a non-empty list of models, and the
    identifiers are those of that list, in order, after one request; or the
    first answer parses to an empty list and the second answer parses to a
    list, and the identifiers are those of the second list, in order, after
    two requests. *)
Theorem getModels_requests (parse : string -> option ModelsResponse)
  (apiEndpoint : string) (net : Network) :
  let result := getModels parse apiEndpoint net in
  let request := _get apiEndpoint "models" _buildHeaders in
  (sent result.2 = sent net ++ [request]
   \/ sent result.2 = sent net ++ [request; request])
  /\ (sent result.2 = sent net ++ [request; request]
      <-> exists text rest,
          pending net = Some text :: rest
          /\ (parse text ≫= models) = Some [])
  /\ (forall ids,
        result.1 = inl ids <->
        (exists text answer list rest,
           pending net = Some text :: rest
           /\ parse text = Some answer /\ models answer = Some list
           /\ list <> [] /\ ids = id <$> list)
        \/ (exists text1 text2 answer1 answer2 list rest,
              pending net = Some text1 :: Some text2 :: rest
              /\ parse text1 = Some answer1 /\ models answer1 = Some []
              /\ parse text2 = Some answer2 /\ models answer2 = Some list
              /\ ids = id <$> list)).
Proof.
  simpl. unfold getModels, fetch.
  assert (Hone : forall l : list Request, forall r : Request,
            l ++ [r] = l ++ [r; r] -> False).
  { intros l r H. apply app_inv_head in H. discriminate H. }
  destruct (pending net) as [| [text |] rest] eqn:Hpending; simpl.
  - split; [by left |]. split.
    + split; [intros H; by apply Hone in H | by intros (? & ? & ? & _)].
    + intros ids. split; [done |].
      by intros [(? & ? & ? & ? & ? & _) | (? & ? & ? & ? & ? & ? & ? & _)].
  - destruct (parse text) as [answer |] eqn:Hparse; simpl.
    + destruct (models answer) as [[| m list] |] eqn:Hmodels; simpl.
      * assert (Hiff : exists t r,
                  Some text :: rest = Some t :: r
                  /\ parse t ≫= models = Some []).
        { exists text, rest. split; [done |]. rewrite Hparse. exact Hmodels. }
        assert (Hfirst : forall ids,
                  ~ (exists t a l r,
                       Some text :: rest = Some t :: r
                       /\ parse t = Some a /\ models a = Some l
                       /\ l <> [] /\ ids = id <$> l)).
        { intros ids (t & a & l & r & [= <- <-] & Hp & Hm & Hl & _).
          congruence. }
        destruct rest as [| [text2 |] rest2]; simpl.
        -- rewrite <- app_assoc. split; [right; reflexivity |].
           split; [split; [done | intros _; reflexivity] |].
           intros ids. split; [done |].
           intros [H | (? & ? & ? & ? & ? & ? & ? & _)]; [| done].
           by apply Hfirst in H.
        -- rewrite <- app_assoc.
           destruct (parse text2) as [answer2 |] eqn:Hparse2; simpl.
           ++ split; [right; reflexivity |].
              split; [split; [done | intros _; reflexivity] |].
              intros ids. unfold model_ids. split.
              ** destruct (models answer2) as [list2 |] eqn:Hm2; [| done].
                 intros [= <-]. right.
                 by exists text, text2, answer, answer2, list2, rest2.
              ** intros [H | (t1 & t2 & a1 & a2 & l & r & [= <- <- <-] & _ & _
                             & Hp2 & Hm2 & ->)].
                 { by apply Hfirst in H. }
                 rewrite Hparse2 in Hp2. injection Hp2 as <-. by rewrite Hm2.
           ++ split; [right; reflexivity |].
              split; [split; [done | intros _; reflexivity] |].
              intros ids. split; [done |].
              intros [H | (t1 & t2 & a1 & a2 & l & r & [= <- <- <-] & _ & _
                          & Hp2 & _)].
              { by apply Hfirst in H. }
              congruence.
        -- rewrite <- app_assoc. split; [right; reflexivity |].
           split; [split; [done | intros _; reflexivity] |].
           intros ids. split; [done |].
           intros [H | (? & ? & ? & ? & ? & ? & ? & _)]; [| done].
           by apply Hfirst in H.
      * split; [by left |]. split.
        { split; [intros H; by apply Hone in H |].
          intros (t & r & [= <- <-] & Hm). rewrite Hparse in Hm. simpl in Hm.
          congruence. }
        unfold model_ids. rewrite Hmodels. intros ids. split.
        -- intros [= <-]. left. by exists text, answer, (m :: list), rest.
        -- intros [(t & a & l & r & [= <- <-] & Hp & Hm & _ & ->)
                  | (t1 & t2 & a1 & a2 & l & r & [= <- _] & Hp & Hm & _)].
           ++ by simplify_eq.
           ++ congruence.
      * split; [by left |]. split.
        { split; [intros H; by apply Hone in H |].
          intros (t & r & [= <- <-] & Hm). rewrite Hparse in Hm. simpl in Hm.
          congruence. }
        unfold model_ids. rewrite Hmodels. intros ids. split; [done |].
        intros [(t & a & l & r & [= <- <-] & Hp & Hm & _)
               | (t1 & t2 & a1 & a2 & l & r & [= <- _] & Hp & Hm & _)];
          congruence.
    + split; [by left |]. split.
      * split; [intros H; by apply Hone in H |].
        intros (t & r & [= <- <-] & Hm). by rewrite Hparse in Hm.
      * intros ids. split; [done |].
        intros [(t & a & l & r & [= <- <-] & Hp & _)
               | (t1 & t2 & a1 & a2 & l & r & [= <- _] & Hp & _)];
          congruence.
  - split; [by left |]. split.
    + split; [intros H; by apply Hone in H | by intros (? & ? & ? & _)].
    + intros ids. split; [done |].
      by intros [(? & ? & ? & ? & ? & _) | (? & ? & ? & ? & ? & ? & ? & _)].
Qed.

End RequesterAnswers.

Section RequesterRuns.

Import OpenAIRequester MoreFixtures.

(** Two deltas, then [DONE]: without tools the second text holds both. *)
Example completionStream_two_deltas :
  text <$> (completionStream stream_runtime false
              (Some [SseEvent "{a}"; SseEvent "{}"; SseEvent "{b}";
                     SseEvent "[DONE]"; SseEvent "{c}"])).1
  = ["{a}"; "{a}{b}"].
Proof. reflexivity. Qed.

Example concatUrl_examples :
  _concatUrl "https://api.openai.com/v1" "models" = "https://api.openai.com/v1/models"
  /\ _concatUrl "https://api.openai.com/v1/" "models" = "https://api.openai.com/v1/models"
  /\ _concatUrl "" "models" = "/models".
Proof. repeat split; reflexivity. Qed.

Lemma concatUrl_trailing_slash_witness :
  _concatUrl "https://api.openai.com/v1" "models"
  = "https://api.openai.com/v1" +:+ "/" +:+ "models"
  /\ _concatUrl ("https://api.openai.com/v1" +:+ "/") "models"
     = _concatUrl "https://api.openai.com/v1" "models".
Proof.
  apply (concatUrl_trailing_slash "https://api.openai.com/v1" "models").
  reflexivity.
Defined.

Lemma completionStream_error_budget_witness :
  (completionStream stream_runtime false
     (Some (SseEvent <$> ["{a}"; "x1"; "{error}"; "x3"; "x4"; "x5"; "x6"; "{b}"]))).2
  = Finished.
Proof.
  apply (completionStream_error_budget stream_runtime false
           ["{a}"; "x1"; "{error}"; "x3"; "x4"; "x5"; "x6"; "{b}"]).
  - repeat constructor; discriminate.
  - vm_compute. lia.
Defined.

(** A seventh bad chunk ends the stream with an error. *)
Example completionStream_seventh_bad_chunk :
  completionStream stream_runtime false
    (Some (SseEvent <$> ["{a}"; "x1"; "{error}"; "x3"; "x4"; "x5"; "x6"; "x7"; "{b}"]))
  = ([mkGenerationChunk (mkMessageChunk "assistant" "{a}") "{a}"],
     Failed (mkChatLunaError API_REQUEST_FAILED (SyntaxError "x7"))).
Proof. reflexivity. Qed.

Lemma embeddings_result_witness :
  embeddings parse_embeddings (Some "[1]") = inl [[1; 2; 3]]
  /\ forall e, embeddings parse_embeddings (Some "[]") = inr e ->
               code e = API_REQUEST_FAILED.
Proof.
  destruct (embeddings_result parse_embeddings (Some "[1]")) as (_ & _ & Hok).
  destruct (embeddings_result parse_embeddings (Some "[]")) as (_ & Hfail & _).
  split; [| exact Hfail].
  apply (Hok "[1]" (mkEmbeddingResponse (Some [mkInner 0 "embedding" [1; 2; 3]]))
           (mkInner 0 "embedding" [1; 2; 3]) []); reflexivity.
Defined.

Lemma getModels_requests_witness :
  sent (getModels parse_models "https://api.openai.com/v1"
          (mkNetwork [Some "[]"; Some "[gpt]"] [])).2
  = [_get "https://api.openai.com/v1" "models" _buildHeaders;
     _get "https://api.openai.com/v1" "models" _buildHeaders]
  /\ (getModels parse_models "https://api.openai.com/v1"
        (mkNetwork [Some "[]"; Some "[gpt]"] [])).1
     = inl ["gpt-4o"].
Proof.
  destruct (getModels_requests parse_models "https://api.openai.com/v1"
              (mkNetwork [Some "[]"; Some "[gpt]"] []))
    as (_ & Hretry & Hids).
  split.
  - apply Hretry. by exists "[]", [Some "[gpt]"].
  - apply Hids. right.
    by exists "[]", "[gpt]", (mkModelsResponse (Some [])),
      (mkModelsResponse (Some [mkModel "gpt-4o"])), [mkModel "gpt-4o"], [].
Defined.

End RequesterRuns.
